(** * A caching DNS forwarder: model of [DNS/dns_server.py]

    The server listens on a UDP socket, answers repeated queries from a
    dictionary guarded by one lock and forwards everything else to a single
    upstream resolver.  This file embeds the three functions of the core
    ([forward_query], [handle_client], [run_dns_server]) as programs of a
    small monad (shared cache, trace of calls, Python exceptions and early
    [return]) and proves the properties of the design document about them.

    What the program takes from the outside world (the clock, the results of
    socket calls) is supplied by an environment record; what it does to the
    outside world is recorded, call by call, in a trace of events. *)

From Stdlib Require Import ZArith QArith List.
From Stdlib Require Import Strings.Byte.
From stdpp Require Import base option gmap strings list.

Local Open Scope Z_scope.

(** ** Data *)

(** Python [bytes]. *)
Abbreviation bytes := (list byte).

(** A socket address [(host, port)]. *)
Abbreviation address := (string * Z)%type.

(** The exceptions (all subclasses of [Exception]) that the library calls of
    the program raise. *)
Inductive exn : Type :=
| DNSError          (* dnslib: malformed packet, or a record that cannot be packed *)
| SocketTimeout     (* socket.timeout *)
| OSError           (* any other socket failure *)
| PermissionError   (* bind to a privileged port *)
| KeyError          (* subscript of a missing dictionary key *)
| RuntimeError      (* threading: cannot start a new thread *)
| UnboundLocalError.  (* a local variable read before it was assigned *)

(** *** Configuration *)

Definition HOST : string := "0.0.0.0".
Definition PORT : Z := 53.
Definition UPSTREAM_DNS : string := "8.8.8.8".
Definition UPSTREAM_PORT : Z := 53.
Definition SOCKET_TIMEOUT : Q := 3.

(** *** The parsed form of a packet (dnslib's [DNSRecord])

    Only the shape of the record is fixed here; how bytes become a record
    and back belongs to the library and is an interface, [Dnslib], below. *)

Record DNSHeader := mkHeader {
  hdr_id : Z;        (* transaction id *)
  hdr_bitmap : Z;    (* the sixteen flag bits *)
  hdr_q : Z; hdr_a : Z; hdr_auth : Z; hdr_ar : Z   (* section counts *)
}.

Record DNSQuestion := mkQuestion {
  qname : string;    (* the name as [str] prints it *)
  qtype : Z;
  qclass : Z
}.

Record RR := mkRR {
  rname : string;
  rtype : Z;
  rclass : Z;
  ttl : Z;
  rdata : bytes
}.

Record DNSRecord := mkRecord {
  header : DNSHeader;
  questions : list DNSQuestion;
  rr : list RR;      (* answer section *)
  auth : list RR;
  ar : list RR
}.

(** [record.q]: the first question, or a default question when the packet
    has none. *)
Definition q (r : DNSRecord) : DNSQuestion :=
  match questions r with
  | qu :: _ => qu
  | [] => mkQuestion "." 1 1
  end.

(** [record.header.id = i] *)
Definition set_header_id (r : DNSRecord) (i : Z) : DNSRecord :=
  let h := header r in
  mkRecord (mkHeader i (hdr_bitmap h) (hdr_q h) (hdr_a h) (hdr_auth h) (hdr_ar h))
           (questions r) (rr r) (auth r) (ar r).

(** The two entry points of dnslib the server calls.  [None] stands for the
    call raising [DNSError]. *)
Class Dnslib := {
  DNSRecord_parse : bytes → option DNSRecord;
  DNSRecord_pack : DNSRecord → option bytes
}.

(** [time.time()] yields a float; the server only compares two instants
    and adds an integer number of seconds to one. *)
Class Clock (Instant : Type) := {
  time_ltb : Instant → Instant → bool;
  time_add : Instant → Z → Instant
}.

(** ** Events *)

Inductive sock : Type :=
| ServerSocket      (* the bound listening socket *)
| UpstreamSocket.   (* the socket [forward_query] creates for one exchange *)

Inductive log_msg : Type :=
| LogListening (host : string) (port : Z)
| LogPermissionDenied
| LogHandlerError (addr : address) (e : exn)
| LogServerError (e : exn).

Inductive event (Instant : Type) : Type :=
| EvLockAcquire
| EvLockRelease
| EvCacheIn (k : string * Z)                      (* [k in cache] *)
| EvCacheGet (k : string * Z)                     (* [cache[k]] *)
| EvCacheDel (k : string * Z)                     (* [del cache[k]] *)
| EvCacheSet (k : string * Z) (v : bytes * Instant)  (* [cache[k] = v] *)
| EvSocket (s : sock)                             (* [socket.socket(AF_INET, SOCK_DGRAM)] *)
| EvSetTimeout (s : sock) (t : Q)
| EvBind (s : sock) (a : address)
| EvSendTo (s : sock) (data : bytes) (a : address) (sent : bool)
| EvRecvFrom (s : sock) (bufsize : Z)
| EvClose (s : sock)
| EvThreadStart (data : bytes) (a : address)      (* a handler thread is started *)
| EvPrint (m : log_msg)                           (* [print(m)]: a write to [sys.stdout] *)
| EvExit (code : Z).                              (* [os._exit] *)

Arguments EvLockAcquire {Instant}.
Arguments EvLockRelease {Instant}.
Arguments EvCacheIn {Instant} k.
Arguments EvCacheGet {Instant} k.
Arguments EvCacheDel {Instant} k.
Arguments EvCacheSet {Instant} k v.
Arguments EvSocket {Instant} s.
Arguments EvSetTimeout {Instant} s t.
Arguments EvBind {Instant} s a.
Arguments EvSendTo {Instant} s data a sent.
Arguments EvRecvFrom {Instant} s bufsize.
Arguments EvClose {Instant} s.
Arguments EvThreadStart {Instant} data a.
Arguments EvPrint {Instant} m.
Arguments EvExit {Instant} code.

(** ** The monad of the server's functions *)

(** How a block of statements ends: it falls through with a value, it
    executes [return], it raises, or it ends the process with [os._exit]. *)
Inductive outcome (A : Type) : Type :=
| Normal (a : A)
| Returned
| Raised (e : exn)
| Exited (code : Z).

Arguments Normal {A} a.
Arguments Returned {A}.
Arguments Raised {A} e.
Arguments Exited {A} code.

(** The result of a call into the operating system. *)
Inductive sys_result (A : Type) : Type :=
| Done (a : A)
| Failed (e : exn).

Arguments Done {A} a.
Arguments Failed {A} e.

Section Monad.
Context {Instant : Type}.

Abbreviation cache_t := (gmap (string * Z) (bytes * Instant)).
Abbreviation trace := (list (event Instant)).

(** A statement runs on the shared cache and yields how it ended, the cache
    it leaves and the calls it made. *)
Definition M (A : Type) : Type := cache_t → outcome A * cache_t * trace.

Definition ret {A} (a : A) : M A := λ c, (Normal a, c, []).

Definition bind {A B} (m : M A) (f : A → M B) : M B := λ c,
  match m c with
  | (Normal a, c1, t1) => let '(o, c2, t2) := f a c1 in (o, c2, t1 ++ t2)
  | (Returned, c1, t1) => (Returned, c1, t1)
  | (Raised e, c1, t1) => (Raised e, c1, t1)
  | (Exited n, c1, t1) => (Exited n, c1, t1)
  end.

Definition return_ {A} : M A := λ c, (Returned, c, []).
Definition raise {A} (e : exn) : M A := λ c, (Raised e, c, []).
Definition emit (ev : event Instant) : M unit := λ c, (Normal (), c, [ev]).

(** [os._exit(code)]: the process ends at once; no handler runs and
    nothing is flushed, so what [print] left in the buffer of standard
    output is lost (see [delivered]). *)
Definition os_exit {A} (code : Z) : M A := λ c, (Exited code, c, [EvExit code]).

(** [try: m finally: fin] — [fin] runs however [m] ends, short of the
    process ending; the way [m] ended stands unless [fin] itself does not
    fall through. *)
Definition try_finally {A} (m : M A) (fin : M unit) : M A := λ c,
  match m c with
  | (Exited n, c1, t1) => (Exited n, c1, t1)
  | (o, c1, t1) =>
      match fin c1 with
      | (Normal _, c2, t2) => (o, c2, t1 ++ t2)
      | (Returned, c2, t2) => (Returned, c2, t1 ++ t2)
      | (Raised e, c2, t2) => (Raised e, c2, t1 ++ t2)
      | (Exited n, c2, t2) => (Exited n, c2, t1 ++ t2)
      end
  end.

(** [try: m except <class>: h] — [catches e] says whether the clause
    matches the exception. *)
Definition try_except {A} (m : M A) (catches : exn → bool) (h : exn → M A) : M A := λ c,
  match m c with
  | (Raised e, c1, t1) =>
      if catches e
      then let '(o, c2, t2) := h e c1 in (o, c2, t1 ++ t2)
      else (Raised e, c1, t1)
  | r => r
  end.

(** A function called for its effects: a [return] inside the callee ends
    the callee only. *)
Definition call (m : M unit) : M unit := λ c,
  match m c with
  | (Returned, c1, t1) => (Normal (), c1, t1)
  | r => r
  end.

(** The dictionary operations on the shared cache. *)
Definition cache_contains (k : string * Z) : M bool := λ c,
  (Normal (bool_decide (is_Some (c !! k))), c, [EvCacheIn k]).

Definition cache_getitem (k : string * Z) : M (bytes * Instant) := λ c,
  match c !! k with
  | Some v => (Normal v, c, [EvCacheGet k])
  | None => (Raised KeyError, c, [EvCacheGet k])
  end.

Definition cache_delitem (k : string * Z) : M unit := λ c,
  match c !! k with
  | Some _ => (Normal (), delete k c, [EvCacheDel k])
  | None => (Raised KeyError, c, [EvCacheDel k])
  end.

Definition cache_setitem (k : string * Z) (v : bytes * Instant) : M unit := λ c,
  (Normal (), <[k := v]> c, [EvCacheSet k v]).

(** [with cache_lock: body] *)
Definition with_cache_lock {A} (body : M A) : M A :=
  bind (emit EvLockAcquire) (λ _, try_finally body (emit EvLockRelease)).

(** [s.sendto(data, a)], with the result the operating system gives. *)
Definition sendto (s : sock) (data : bytes) (a : address) (r : sys_result unit) : M unit :=
  match r with
  | Done _ => emit (EvSendTo s data a true)
  | Failed e => bind (emit (EvSendTo s data a false)) (λ _, raise e)
  end.

(** [s.recvfrom(bufsize)] *)
Definition recvfrom {A} (s : sock) (bufsize : Z) (r : sys_result A) : M A :=
  bind (emit (EvRecvFrom s bufsize))
       (λ _, match r with Done d => ret d | Failed e => raise e end).

(** [sock = socket.socket(AF_INET, SOCK_DGRAM)]: the name is bound, and the
    event recorded, only when the socket was created. *)
Definition socket_open (s : sock) (r : sys_result unit) : M unit :=
  match r with
  | Done _ => emit (EvSocket s)
  | Failed e => raise e
  end.

(** [sock.close()] where [sock] is the name the creation [r] was to bind:
    Python raises [UnboundLocalError] when the name was never bound. *)
Definition socket_close (s : sock) (r : sys_result unit) : M unit :=
  match r with
  | Done _ => emit (EvClose s)
  | Failed _ => raise UnboundLocalError
  end.

(** [s.bind(a)] *)
Definition bind_socket (s : sock) (a : address) (r : sys_result unit) : M unit :=
  bind (emit (EvBind s a))
       (λ _, match r with Done _ => ret () | Failed e => raise e end).

(** [Thread(target=handle_client, args=(data, a, server_socket))], marked
    daemon and started. *)
Definition thread_start (data : bytes) (a : address) (r : sys_result unit) : M unit :=
  match r with
  | Done _ => emit (EvThreadStart data a)
  | Failed e => raise e
  end.
End Monad.

Arguments M : clear implicits.

Global Instance M_ret {Instant} : MRet (M Instant) := @ret Instant.
Global Instance M_bind {Instant} : MBind (M Instant) := λ A B f m, bind m f.

(** ** The program *)

(** What one run of [handle_client] takes from the outside world: the two
    readings of the clock and the results of the socket calls.  At most one
    reply is sent per run, so one field serves both [server_socket.sendto]
    calls. *)
Record handler_env (Instant : Type) := mkEnv {
  time_at_lookup : Instant;              (* [time.time()] in the cache check *)
  reply_sendto : sys_result unit;        (* [server_socket.sendto(..., addr)] *)
  upstream_socket : sys_result unit;     (* [sock = socket.socket(AF_INET, SOCK_DGRAM)] *)
  upstream_sendto : sys_result unit;     (* [sock.sendto(data, upstream)] *)
  upstream_recvfrom : sys_result bytes;  (* [response, _ = sock.recvfrom(4096)] *)
  time_at_store : Instant                (* [time.time()] in the cache update *)
}.

Arguments mkEnv {Instant}.
Arguments time_at_lookup {Instant}.
Arguments reply_sendto {Instant}.
Arguments upstream_socket {Instant}.
Arguments upstream_sendto {Instant}.
Arguments upstream_recvfrom {Instant}.
Arguments time_at_store {Instant}.

(** What one turn of the loop of [run_dns_server] takes from the outside
    world. *)
Record iteration_env := mkIter {
  server_recvfrom : sys_result (bytes * address);  (* [server_socket.recvfrom(512)] *)
  handler_start : sys_result unit                  (* [thread.start()] *)
}.

(** Python's [min] on a non-empty list of integers. *)
Definition py_min (x : Z) (xs : list Z) : Z := fold_left Z.min xs x.

(** [except socket.timeout] *)
Definition is_timeout (e : exn) : bool :=
  match e with SocketTimeout => true | _ => false end.

(** [except PermissionError] *)
Definition is_permission_error (e : exn) : bool :=
  match e with PermissionError => true | _ => false end.

(** [not response_data]: [None] and the empty byte string are falsy. *)
Definition falsy (response_data : option bytes) : bool :=
  match response_data with
  | None => true
  | Some [] => true
  | Some (_ :: _) => false
  end.

Section Server.
Context {Instant : Type} {clock : Clock Instant} {lib : Dnslib}.

(** [forward_query(data)].  The socket is created inside the [try], so the
    [finally] clause closes it when it exists and fails on the unbound name
    when it does not.  Setting the timeout to a constant cannot fail.  Both
    [return]s are the last statement of their block, so they are the value
    of the block; [None] is Python's [None]. *)
Definition forward_query (data : bytes) (env : handler_env Instant)
    : M Instant (option bytes) :=
  try_finally
    (try_except
       (socket_open UpstreamSocket (upstream_socket env);;
        emit (EvSetTimeout UpstreamSocket SOCKET_TIMEOUT);;
        sendto UpstreamSocket data (UPSTREAM_DNS, UPSTREAM_PORT) (upstream_sendto env);;
        response ← recvfrom UpstreamSocket 4096 (upstream_recvfrom env);
        mret (Some response))
       is_timeout
       (λ _, mret None))
    (socket_close UpstreamSocket (upstream_socket env)).

(** [DNSRecord.parse(data)] and [record.pack()] as statements. *)
Definition parse (data : bytes) : M Instant DNSRecord :=
  match DNSRecord_parse data with
  | Some r => mret r
  | None => raise DNSError
  end.

Definition pack (r : DNSRecord) : M Instant bytes :=
  match DNSRecord_pack r with
  | Some b => mret b
  | None => raise DNSError
  end.

(** The body of the [try] of [handle_client]. *)
Definition handle_client_body (data : bytes) (addr : address)
    (env : handler_env Instant) : M Instant unit :=
  request ← parse data;
  let qname := qname (q request) in
  let qtype := qtype (q request) in
  (* 1. Check Cache *)
  with_cache_lock (
    present ← cache_contains (qname, qtype);
    if (present : bool) then
      '(raw_resp, expiry) ← cache_getitem (qname, qtype);
      if time_ltb (time_at_lookup env) expiry then
        (* Cache hit: Rewrite transaction ID to match the client's request *)
        cached_resp ← parse raw_resp;
        let cached_resp := set_header_id cached_resp (hdr_id (header request)) in
        packed ← pack cached_resp;
        sendto ServerSocket packed addr (reply_sendto env);;
        return_
      else
        (* Cache expired *)
        cache_delitem (qname, qtype)
    else mret ());;
  (* 2. Cache Miss: Forward to Upstream *)
  response_data ← forward_query data env;
  if falsy response_data then return_ else
  let response_data := default [] response_data in
  response_record ← parse response_data;
  (* 3. Extract TTL and update Cache *)
  let ttls := map ttl (rr response_record) in
  let ttl := 60 in
  let ttl := match ttls with
             | [] => ttl
             | t :: ts => py_min t ts
             end in
  with_cache_lock (
    cache_setitem (qname, qtype) (response_data, time_add (time_at_store env) ttl));;
  (* 4. Send back to client *)
  sendto ServerSocket response_data addr (reply_sendto env).

(** [handle_client(data, addr, server_socket)]: every [Exception] raised in
    the body is caught and printed with the client's address. *)
Definition handle_client (data : bytes) (addr : address)
    (env : handler_env Instant) : M Instant unit :=
  call (try_except (handle_client_body data addr env)
                   (λ _, true)
                   (λ e, emit (EvPrint (LogHandlerError addr e)))).

(** One turn of the [while True] loop of [run_dns_server]. *)
Definition serve_once (it : iteration_env) : M Instant unit :=
  try_except
    ('(data, addr) ← recvfrom ServerSocket 512 (server_recvfrom it);
     thread_start data addr (handler_start it))
    (λ _, true)
    (λ e, emit (EvPrint (LogServerError e))).

(** The loop, run for the turns the environment describes; it falls through
    only when all of them are done, that is, with the server back at the top
    of the loop. *)
Fixpoint serve (its : list iteration_env) : M Instant unit :=
  match its with
  | [] => mret ()
  | it :: its' => serve_once it;; serve its'
  end.

(** [run_dns_server()]; [bind_result] is what the bind to the port gives. *)
Definition run_dns_server (bind_result : sys_result unit)
    (its : list iteration_env) : M Instant unit :=
  emit (EvSocket ServerSocket);;
  try_except
    (bind_socket ServerSocket (HOST, PORT) bind_result;;
     emit (EvPrint (LogListening HOST PORT)))
    is_permission_error
    (λ _, emit (EvPrint LogPermissionDenied);; os_exit 1);;
  serve its.
End Server.

(** ** Observations on a run *)

(** What standard output is connected to. *)
Inductive stdout_kind : Type :=
| Terminal       (* line-buffered *)
| PipeOrFile.    (* block-buffered *)

(** [io.DEFAULT_BUFFER_SIZE] *)
Definition STDOUT_BUFFER : Z := 8192.

(** The text of the diagnostic of [run_dns_server], with the line end
    [print] adds. *)
Definition PERMISSION_DENIED_LINE : string :=
  String (Ascii.ascii_of_nat 10)
    ("[!] Permission Denied. You must run this script as Administrator/Root to bind to port 53."
     +:+ String (Ascii.ascii_of_nat 10) EmptyString).

Section Observations.
Context {Instant : Type} {clock : Clock Instant} {lib : Dnslib}.

(** The datagrams that left through the listening socket. *)
Definition replies (t : list (event Instant)) : list (bytes * address) :=
  omap (λ ev, match ev with
              | EvSendTo ServerSocket d a true => Some (d, a)
              | _ => None
              end) t.

(** The writes to the cache. *)
Definition stores (t : list (event Instant)) : list ((string * Z) * (bytes * Instant)) :=
  omap (λ ev, match ev with EvCacheSet k v => Some (k, v) | _ => None end) t.

(** The messages given to [print], in order. *)
Definition printed (t : list (event Instant)) : list log_msg :=
  omap (λ ev, match ev with EvPrint m => Some m | _ => None end) t.

Definition is_exit (ev : event Instant) : bool :=
  match ev with EvExit _ => true | _ => false end.

(** The messages that have left the process when the run is over.  [print]
    writes to [sys.stdout].  On a terminal Python flushes it at the end of
    every line, and each message of the server ends with one.  On a pipe or
    a file the text stays in the buffer of the stream until the buffer
    ([STDOUT_BUFFER] bytes) is full or the interpreter shuts down;
    [os._exit] ends the process without that shutdown.  The buffer is taken
    not to fill before an exit: the one line printed on that path,
    [PERMISSION_DENIED_LINE], is far shorter. *)
Definition delivered (out : stdout_kind) (t : list (event Instant)) : list log_msg :=
  match out with
  | Terminal => printed t
  | PipeOrFile => if existsb is_exit t then [] else printed t
  end.

(** Everything done while the cache lock is held; [held] says whether it
    is held where the trace starts. *)
Fixpoint under_lock (held : bool) (t : list (event Instant)) : list (event Instant) :=
  match t with
  | [] => []
  | EvLockAcquire :: t' => under_lock true t'
  | EvLockRelease :: t' => under_lock false t'
  | ev :: t' => if held then ev :: under_lock held t' else under_lock held t'
  end.

(** The keys under which the run looked into, read, deleted from or wrote
    to the cache, one per operation. *)
Definition cache_keys (t : list (event Instant)) : list (string * Z) :=
  omap (λ ev, match ev with
              | EvCacheIn k | EvCacheGet k | EvCacheDel k | EvCacheSet k _ => Some k
              | _ => None
              end) t.

Definition is_network (ev : event Instant) : bool :=
  match ev with
  | EvSendTo _ _ _ _ | EvRecvFrom _ _ => true
  | _ => false
  end.

Definition is_upstream (ev : event Instant) : bool :=
  match ev with
  | EvSocket UpstreamSocket | EvSetTimeout UpstreamSocket _ | EvBind UpstreamSocket _
  | EvSendTo UpstreamSocket _ _ _ | EvRecvFrom UpstreamSocket _
  | EvClose UpstreamSocket => true
  | _ => false
  end.


Definition is_recv (ev : event Instant) : bool :=
  match ev with EvRecvFrom _ _ => true | _ => false end.



Definition is_bind (ev : event Instant) : bool :=
  match ev with EvBind _ _ => true | _ => false end.

Definition count (p : event Instant → bool) (t : list (event Instant)) : nat :=
  length (List.filter p t).

(** The network calls made while the cache lock is held; [held] says
    whether it is held where the trace starts. *)
Fixpoint io_under_lock (held : bool) (t : list (event Instant)) : list (event Instant) :=
  match t with
  | [] => []
  | EvLockAcquire :: t' => io_under_lock true t'
  | EvLockRelease :: t' => io_under_lock false t'
  | ev :: t' =>
      if held && is_network ev
      then ev :: io_under_lock held t'
      else io_under_lock held t'
  end.

(** The cache key of a parsed query. *)
Definition cache_key (request : DNSRecord) : string * Z :=
  (qname (q request), qtype (q request)).

(** Whether the cache holds an entry for the query that is valid at the
    instant the check reads. *)
Definition is_hit (env : handler_env Instant) (request : DNSRecord)
    (c : gmap (string * Z) (bytes * Instant)) : bool :=
  match c !! cache_key request with
  | Some (_, expiry) => time_ltb (time_at_lookup env) expiry
  | None => false
  end.

(** The cache as the check of [handle_client] leaves it: an entry for the
    key that is not valid at [now] is gone, nothing else changes. *)
Definition after_lookup (now : Instant) (k : string * Z)
    (c : gmap (string * Z) (bytes * Instant)) : gmap (string * Z) (bytes * Instant) :=
  match c !! k with
  | Some (_, expiry) => if time_ltb now expiry then c else delete k c
  | None => c
  end.

(** The bytes a hit replies with, when the run gets as far as sending
    them. *)
Definition hit_reply (data : bytes) (env : handler_env Instant)
    (c : gmap (string * Z) (bytes * Instant)) : option bytes :=
  request ← DNSRecord_parse data;
  '(raw_resp, expiry) ← c !! cache_key request;
  if time_ltb (time_at_lookup env) expiry then
    cached_resp ← DNSRecord_parse raw_resp;
    DNSRecord_pack (set_header_id cached_resp (hdr_id (header request)))
  else None.

Definition sent_ok (r : sys_result unit) : bool :=
  match r with Done _ => true | Failed _ => false end.

(** The environment that differs from [env] only in that the upstream
    never answers. *)
Definition with_upstream_timeout (env : handler_env Instant) : handler_env Instant :=
  mkEnv (time_at_lookup env) (reply_sendto env) (upstream_socket env)
        (upstream_sendto env) (Failed SocketTimeout) (time_at_store env).

(** *** The runs written out

    [forward_query] and the body of [handle_client] by cases of what the
    environment gives; they are proved equal to the programs below and
    serve the proofs only. *)

Definition forward_result (env : handler_env Instant) : outcome (option bytes) :=
  match upstream_socket env with
  | Failed _ => Raised UnboundLocalError
  | Done _ =>
      match upstream_sendto env with
      | Failed e => if is_timeout e then Normal None else Raised e
      | Done _ =>
          match upstream_recvfrom env with
          | Done response => Normal (Some response)
          | Failed e => if is_timeout e then Normal None else Raised e
          end
      end
  end.

Definition forward_trace (data : bytes) (env : handler_env Instant) : list (event Instant) :=
  match upstream_socket env with
  | Failed _ => []
  | Done _ =>
      [EvSocket UpstreamSocket; EvSetTimeout UpstreamSocket SOCKET_TIMEOUT] ++
      match upstream_sendto env with
      | Failed _ => [EvSendTo UpstreamSocket data (UPSTREAM_DNS, UPSTREAM_PORT) false]
      | Done _ => [EvSendTo UpstreamSocket data (UPSTREAM_DNS, UPSTREAM_PORT) true;
                   EvRecvFrom UpstreamSocket 4096]
      end ++ [EvClose UpstreamSocket]
  end.

Definition ttl_of (response_record : DNSRecord) : Z :=
  match map ttl (rr response_record) with
  | [] => 60
  | t :: ts => py_min t ts
  end.

Definition miss_run (data : bytes) (addr : address) (env : handler_env Instant)
    (k : string * Z) (c1 : gmap (string * Z) (bytes * Instant)) (pre : list (event Instant))
    : outcome unit * gmap (string * Z) (bytes * Instant) * list (event Instant) :=
  match forward_result env with
  | Normal None | Normal (Some []) => (Returned, c1, pre ++ forward_trace data env)
  | Normal (Some response_data) =>
      match DNSRecord_parse response_data with
      | None => (Raised DNSError, c1, pre ++ forward_trace data env)
      | Some response_record =>
          let v := (response_data, time_add (time_at_store env) (ttl_of response_record)) in
          (match reply_sendto env with Done _ => Normal () | Failed e => Raised e end,
           <[k := v]> c1,
           pre ++ forward_trace data env ++
           [EvLockAcquire; EvCacheSet k v; EvLockRelease;
            EvSendTo ServerSocket response_data addr (sent_ok (reply_sendto env))])
      end
  | Raised e => (Raised e, c1, pre ++ forward_trace data env)
  | Returned => (Returned, c1, [])
  | Exited n => (Exited n, c1, [])
  end.

Definition hit_run (addr : address) (env : handler_env Instant) (request : DNSRecord)
    (raw_resp : bytes) (c : gmap (string * Z) (bytes * Instant))
    : outcome unit * gmap (string * Z) (bytes * Instant) * list (event Instant) :=
  let k := cache_key request in
  match DNSRecord_parse raw_resp with
  | None => (Raised DNSError, c, [EvLockAcquire; EvCacheIn k; EvCacheGet k; EvLockRelease])
  | Some cached_resp =>
      match DNSRecord_pack (set_header_id cached_resp (hdr_id (header request))) with
      | None => (Raised DNSError, c, [EvLockAcquire; EvCacheIn k; EvCacheGet k; EvLockRelease])
      | Some packed =>
          (match reply_sendto env with Done _ => Returned | Failed e => Raised e end,
           c,
           [EvLockAcquire; EvCacheIn k; EvCacheGet k;
            EvSendTo ServerSocket packed addr (sent_ok (reply_sendto env)); EvLockRelease])
      end
  end.

Definition body_run (data : bytes) (addr : address) (env : handler_env Instant)
    (c : gmap (string * Z) (bytes * Instant))
    : outcome unit * gmap (string * Z) (bytes * Instant) * list (event Instant) :=
  match DNSRecord_parse data with
  | None => (Raised DNSError, c, [])
  | Some request =>
      let k := cache_key request in
      match c !! k with
      | Some (raw_resp, expiry) =>
          if time_ltb (time_at_lookup env) expiry
          then hit_run addr env request raw_resp c
          else miss_run data addr env k (delete k c)
                 [EvLockAcquire; EvCacheIn k; EvCacheGet k; EvCacheDel k; EvLockRelease]
      | None =>
          miss_run data addr env k c [EvLockAcquire; EvCacheIn k; EvLockRelease]
      end
  end.
End Observations.

(** "The minimum TTL over all answer records, 60 when there is none", in
    the words of the design document. *)
Definition is_ttl_to_cache (response : DNSRecord) (t : Z) : Prop :=
  match rr response with
  | [] => t = 60
  | _ :: _ => t ∈ map ttl (rr response) ∧ ∀ x, x ∈ map ttl (rr response) → t ≤ x
  end.


(** The entries the run deleted from the cache. *)
Definition evictions {Instant : Type} (t : list (event Instant)) : list (string * Z) :=
  omap (λ ev, match ev with EvCacheDel k => Some k | _ => None end) t.

(** ** The wire format

    [DNSRecord.parse] and [DNSRecord.pack] belong to dnslib, not to the
    server.  The properties below hold for every [Dnslib]; to run the server
    on packets, and to compare a reply with the bytes it was derived from,
    this module gives the outer layer of the library's codec: the
    twelve-byte header and the four sections read and written item by item.
    How one question or one resource record is read and written (name
    compression, the record types) is a parameter, [ItemCodec]. *)

Module Wire.

Definition Z_of_byte (b : byte) : Z := Z.of_N (Byte.to_N b).
Definition byte_of_Z (z : Z) : byte := default x00 (Byte.of_N (Z.to_N (z mod 256))).

(** [struct] formats [!H] and [!I]: big-endian, unsigned, range-checked. *)
Definition unpack_H (b1 b0 : byte) : Z := 256 * Z_of_byte b1 + Z_of_byte b0.

Definition pack_H (v : Z) : option bytes :=
  if bool_decide (0 ≤ v < 65536)
  then Some [byte_of_Z (v / 256); byte_of_Z v]
  else None.

Definition unpack_I (b3 b2 b1 b0 : byte) : Z :=
  65536 * unpack_H b3 b2 + unpack_H b1 b0.

Definition pack_I (v : Z) : option bytes :=
  if bool_decide (0 ≤ v < 4294967296)
  then hi ← pack_H (v / 65536); lo ← pack_H (v mod 65536); Some (hi ++ lo)
  else None.

(** Reading an item takes the whole packet and an offset (a name may point
    backwards into the packet); writing threads the bytes written so far
    and the table of the names already written. *)
Record ItemCodec := mkItemCodec {
  names : Type;
  no_names : names;
  parse_question : bytes → nat → option (DNSQuestion * nat);
  parse_rr : bytes → nat → option (RR * nat);
  pack_question : DNSQuestion → bytes * names → option (bytes * names);
  pack_rr : RR → bytes * names → option (bytes * names)
}.

(** The header: six 16-bit fields. *)
Definition parse_header (data : bytes) : option (DNSHeader * nat) :=
  match data with
  | i1 :: i0 :: f1 :: f0 :: q1 :: q0 :: a1 :: a0 :: n1 :: n0 :: r1 :: r0 :: _ =>
      Some (mkHeader (unpack_H i1 i0) (unpack_H f1 f0) (unpack_H q1 q0)
                     (unpack_H a1 a0) (unpack_H n1 n0) (unpack_H r1 r0), 12%nat)
  | _ => None
  end.

Definition pack_header (h : DNSHeader) : option bytes :=
  i ← pack_H (hdr_id h); f ← pack_H (hdr_bitmap h); nq ← pack_H (hdr_q h);
  na ← pack_H (hdr_a h); nn ← pack_H (hdr_auth h); nr ← pack_H (hdr_ar h);
  Some (i ++ f ++ nq ++ na ++ nn ++ nr).

Fixpoint parse_items {A} (p : bytes → nat → option (A * nat)) (data : bytes)
    (n : nat) (off : nat) : option (list A * nat) :=
  match n with
  | O => Some ([], off)
  | S n' =>
      '(x, off1) ← p data off;
      '(xs, off2) ← parse_items p data n' off1;
      Some (x :: xs, off2)
  end.

Fixpoint pack_items {A B} (p : A → B → option B) (xs : list A) (buf : B) : option B :=
  match xs with
  | [] => Some buf
  | x :: xs' => buf1 ← p x buf; pack_items p xs' buf1
  end.

(** Parsing reads the header, then as many items per section as the header
    announces; bytes after the last item are not looked at. *)
Definition parse_record (ic : ItemCodec) (data : bytes) : option DNSRecord :=
  '(h, off) ← parse_header data;
  '(qs, off) ← parse_items (parse_question ic) data (Z.to_nat (hdr_q h)) off;
  '(an, off) ← parse_items (parse_rr ic) data (Z.to_nat (hdr_a h)) off;
  '(ns, off) ← parse_items (parse_rr ic) data (Z.to_nat (hdr_auth h)) off;
  '(ad, _) ← parse_items (parse_rr ic) data (Z.to_nat (hdr_ar h)) off;
  Some (mkRecord h qs an ns ad).

(** Before packing, the counts of the header are set to the lengths of the
    sections. *)
Definition set_header_qa (r : DNSRecord) : DNSHeader :=
  mkHeader (hdr_id (header r)) (hdr_bitmap (header r))
           (Z.of_nat (length (questions r))) (Z.of_nat (length (rr r)))
           (Z.of_nat (length (auth r))) (Z.of_nat (length (ar r))).

(** Packing writes into a fresh buffer the header, then every item. *)
Definition pack_record (ic : ItemCodec) (r : DNSRecord) : option bytes :=
  hb ← pack_header (set_header_qa r);
  b1 ← pack_items (pack_question ic) (questions r) (hb, no_names ic);
  b2 ← pack_items (pack_rr ic) (rr r) b1;
  b3 ← pack_items (pack_rr ic) (auth r) b2;
  b4 ← pack_items (pack_rr ic) (ar r) b3;
  Some (b4.1).

Definition dnslib (ic : ItemCodec) : Dnslib :=
  {| DNSRecord_parse := parse_record ic; DNSRecord_pack := pack_record ic |}.

(** Patching in place: the packet with its first two bytes, the
    transaction id, replaced by [i]. *)
Definition overwrite_id (raw : bytes) (i : Z) : bytes :=
  [byte_of_Z (i / 256); byte_of_Z i] ++ drop 2 raw.

(** The transaction id a packet carries: its first two bytes. *)
Definition txid (data : bytes) : option Z :=
  match data with
  | i1 :: i0 :: _ => Some (unpack_H i1 i0)
  | _ => None
  end.

(** A writer of items that only appends: what it adds, and the names it
    remembers, depend on how much was written before, not on what. *)
Definition appends {A N : Type} (p : A → bytes * N → option (bytes * N)) : Prop :=
  ∀ x b n b' n', p x (b, n) = Some (b', n') →
    ∃ s, b' = b ++ s ∧
         ∀ b2, length b2 = length b → p x (b2, n) = Some (b2 ++ s, n').

Definition items_append (ic : ItemCodec) : Prop :=
  appends (pack_question ic) ∧ appends (pack_rr ic).

(** *** An item codec without name compression *)

Definition string_of_label (l : bytes) : string :=
  String.string_of_list_ascii (map Ascii.ascii_of_byte l).

(** A name is a run of length-prefixed labels closed by a zero byte; it
    prints as its labels, each followed by a dot. *)
Fixpoint decode_labels (fuel : nat) (data : bytes) (off : nat) : option (string * nat) :=
  match fuel with
  | O => None
  | S fuel' =>
      b ← data !! off;
      let n := N.to_nat (Byte.to_N b) in
      if bool_decide (n = 0%nat) then Some (EmptyString, S off)
      else if bool_decide (63 < n)%nat then None
      else
        let l := take n (drop (S off) data) in
        if bool_decide (length l < n)%nat then None
        else
          '(rest, off') ← decode_labels fuel' data (S off + n);
          Some (string_of_label l +:+ "." +:+ rest, off')
  end.

Definition decode_name (data : bytes) (off : nat) : option (string * nat) :=
  '(s, off') ← decode_labels (length data) data off;
  Some (if bool_decide (s = EmptyString) then "."%string else s, off').

Fixpoint encode_labels (s : string) (cur : bytes) : option bytes :=
  match s with
  | EmptyString => if cur is [] then Some [x00] else None
  | String ch s' =>
      if Byte.eqb (Ascii.byte_of_ascii ch) x2e
      then
        if bool_decide (1 ≤ length cur ≤ 63)%nat
        then rest ← encode_labels s' [];
             Some (byte_of_Z (Z.of_nat (length cur)) :: cur ++ rest)
        else None
      else encode_labels s' (cur ++ [Ascii.byte_of_ascii ch])
  end.

Definition encode_name (s : string) : option bytes :=
  if bool_decide (s = "."%string) then Some [x00] else encode_labels s [].

Definition plain_parse_question (data : bytes) (off : nat) : option (DNSQuestion * nat) :=
  '(name, off) ← decode_name data off;
  match drop off data with
  | t1 :: t0 :: c1 :: c0 :: _ =>
      Some (mkQuestion name (unpack_H t1 t0) (unpack_H c1 c0), (off + 4)%nat)
  | _ => None
  end.

Definition plain_parse_rr (data : bytes) (off : nat) : option (RR * nat) :=
  '(name, off) ← decode_name data off;
  match drop off data with
  | t1 :: t0 :: c1 :: c0 :: l3 :: l2 :: l1 :: l0 :: n1 :: n0 :: rest =>
      let n := Z.to_nat (unpack_H n1 n0) in
      if bool_decide (length rest < n)%nat then None
      else Some (mkRR name (unpack_H t1 t0) (unpack_H c1 c0) (unpack_I l3 l2 l1 l0)
                      (take n rest), (off + 10 + n)%nat)
  | _ => None
  end.

Definition plain_pack_question (qu : DNSQuestion) (buf : bytes * ()) : option (bytes * ()) :=
  n ← encode_name (qname qu); t ← pack_H (qtype qu); c ← pack_H (qclass qu);
  Some (buf.1 ++ n ++ t ++ c, ()).

Definition plain_pack_rr (r : RR) (buf : bytes * ()) : option (bytes * ()) :=
  n ← encode_name (rname r); t ← pack_H (rtype r); c ← pack_H (rclass r);
  l ← pack_I (ttl r); len ← pack_H (Z.of_nat (length (rdata r)));
  Some (buf.1 ++ n ++ t ++ c ++ l ++ len ++ rdata r, ()).

Definition plain_items : ItemCodec :=
  mkItemCodec () () plain_parse_question plain_parse_rr plain_pack_question plain_pack_rr.

End Wire.

(** Three facts about the library that the server relies on when it
    rewrites the id of a cached response; dnslib reads and writes the header
    with [struct] format [!HHHHHH] at the start of the packet, the id first,
    and nothing else of the packet depends on the id. *)

(** The id of the header of a parsed record is read from the first two
    bytes of the packet. *)
Definition parse_reads_id (lib : Dnslib) : Prop :=
  ∀ d r, DNSRecord_parse d = Some r → Wire.txid d = Some (hdr_id (header r)).

(** The packet starts with the id of the header of the record. *)
Definition pack_writes_id (lib : Dnslib) : Prop :=
  ∀ r w, DNSRecord_pack r = Some w → Wire.txid w = Some (hdr_id (header r)).

(** The id of the header goes into the first two bytes and into nothing
    else. *)
Definition pack_patches_id (lib : Dnslib) : Prop :=
  ∀ r i w w',
    DNSRecord_pack r = Some w →
    DNSRecord_pack (set_header_id r i) = Some w' →
    w' = Wire.overwrite_id w i.

(** ** Concrete runs *)

Module Example.

(** Instants counted in whole seconds. *)
Definition Z_clock : Clock Z := {| time_ltb := Z.ltb; time_add := Z.add |}.

Definition plain_dnslib : Dnslib := Wire.dnslib Wire.plain_items.

Definition run_handler (data : bytes) (addr : address) (env : handler_env Z)
    (c : gmap (string * Z) (bytes * Z)) :=
  @handle_client Z Z_clock plain_dnslib data addr env c.

Definition run_body (data : bytes) (addr : address) (env : handler_env Z)
    (c : gmap (string * Z) (bytes * Z)) :=
  @handle_client_body Z Z_clock plain_dnslib data addr env c.

Definition run_forward (data : bytes) (env : handler_env Z)
    (c : gmap (string * Z) (bytes * Z)) :=
  @forward_query Z data env c.

Definition alice : address := ("192.0.2.7"%string, 40000).
Definition bob : address := ("192.0.2.9"%string, 40001).

Definition example_com : DNSQuestion := mkQuestion "example.com." 1 1.

(** Two clients ask for the same name under their own transaction ids. *)
Definition alice_request : DNSRecord :=
  mkRecord (mkHeader 4660 256 1 0 0 0) [example_com] [] [] [].

Definition bob_request : DNSRecord :=
  mkRecord (mkHeader 17185 256 1 0 0 0) [example_com] [] [] [].

(** The answer to the first of them: two address records, 120 and 300
    seconds to live. *)
Definition answer_record : DNSRecord :=
  mkRecord (mkHeader 4660 33152 1 2 0 0) [example_com]
    [mkRR "example.com." 1 1 120 [x5d; xb8; xd8; x22];
     mkRR "example.com." 1 1 300 [x5d; xb8; xd8; x23]] [] [].

(** An answer without records. *)
Definition empty_answer_record : DNSRecord :=
  mkRecord (mkHeader 4660 33155 1 0 0 0) [example_com] [] [] [].

Definition alice_query : bytes :=
  Eval vm_compute in default [] (Wire.pack_record Wire.plain_items alice_request).

Definition bob_query : bytes :=
  Eval vm_compute in default [] (Wire.pack_record Wire.plain_items bob_request).

Definition answer : bytes :=
  Eval vm_compute in default [] (Wire.pack_record Wire.plain_items answer_record).

Definition empty_answer : bytes :=
  Eval vm_compute in default [] (Wire.pack_record Wire.plain_items empty_answer_record).

(** The answer as the second client gets it from the cache. *)
Definition answer_for_bob : bytes :=
  Eval vm_compute in
    default [] (Wire.pack_record Wire.plain_items (set_header_id answer_record 17185)).

(** Not a packet: too short for a header. *)
Definition garbage : bytes := [xde; xad; xbe; xef].

(** The cache after the first answer was stored at second 1000. *)
Definition warm_cache : gmap (string * Z) (bytes * Z) :=
  {[ ("example.com."%string, 1) := (answer, 1120) ]}.

(** Environments: the instant of the run (both readings of the clock) and
    what the upstream does; the reply to the client goes through. *)
Definition env_answering (now : Z) (response : bytes) : handler_env Z :=
  mkEnv now (Done ()) (Done ()) (Done ()) (Done response) now.

Definition env_silent (now : Z) : handler_env Z :=
  mkEnv now (Done ()) (Done ()) (Done ()) (Failed SocketTimeout) now.


(** What the padded reply parses to. *)
Definition padded_record : DNSRecord :=
  mkRecord (mkHeader 48879 33152 0 0 0 0) [] [] [] [].

(** A query of twelve bytes, header only, and a reply to it that carries
    one byte after its (empty) sections. *)
Definition bare_query : bytes :=
  [x12; x34; x01; x00; x00; x00; x00; x00; x00; x00; x00; x00].

Definition padded_reply : bytes :=
  [xbe; xef; x81; x80; x00; x00; x00; x00; x00; x00; x00; x00; xff].

Definition bare_reply : bytes :=
  [x12; x34; x81; x80; x00; x00; x00; x00; x00; x00; x00; x00].

(** What the bare query parses to; its key is that of the default
    question. *)
Definition bare_request : DNSRecord :=
  mkRecord (mkHeader 4660 256 0 0 0 0) [] [] [] [].

Definition padded_cache : gmap (string * Z) (bytes * Z) :=
  {[ ("."%string, 1) := (padded_reply, 100) ]}.

End Example.

(** ** Further observations on the server *)

Section MoreObservations.
Context {Instant : Type} {clock : Clock Instant} {lib : Dnslib}.

(** The lock where the trace ends, from where it starts: [None] when the
    trace acquires a lock that is held or releases one that is free. *)
Fixpoint lock_after (held : bool) (t : list (event Instant)) : option bool :=
  match t with
  | [] => Some held
  | EvLockAcquire :: t' => if held then None else lock_after true t'
  | EvLockRelease :: t' => if held then lock_after false t' else None
  | _ :: t' => lock_after held t'
  end.

(** Where the sends on the listening socket were addressed, delivered or
    not. *)
Definition reply_attempts (t : list (event Instant)) : list address :=
  omap (λ ev, match ev with
              | EvSendTo ServerSocket _ a _ => Some a
              | _ => None
              end) t.

(** What was sent upstream, and where to. *)
Definition forwarded (t : list (event Instant)) : list (bytes * address) :=
  omap (λ ev, match ev with
              | EvSendTo UpstreamSocket d a _ => Some (d, a)
              | _ => None
              end) t.



(** Every entry of the cache holds bytes that are not empty and that
    parse. *)
Definition cache_parses (c : gmap (string * Z) (bytes * Instant)) : Prop :=
  map_Forall (λ _ v, v.1 ≠ [] ∧ is_Some (DNSRecord_parse v.1)) c.
End MoreObservations.

(** ** The propagation test *)

(** The table of resolvers, in the order of the dictionary. *)
Definition GLOBAL_SERVERS : list (string * string) :=
  [("Google Primary", "8.8.8.8");
   ("Google Secondary", "8.8.4.4");
   ("Cloudflare", "1.1.1.1");
   ("Quad9", "9.9.9.9");
   ("OpenDNS Primary", "208.67.222.222");
   ("OpenDNS Secondary", "208.67.220.220");
   ("Level3 Primary", "4.2.2.1");
   ("Level3 Secondary", "4.2.2.2");
   ("AdGuard", "94.140.14.14");
   ("Comodo", "8.26.56.26");
   ("ControlD", "76.76.2.0");
   ("NextDNS", "45.90.28.190");
   ("CleanBrowsing", "185.228.168.9");
   ("Yandex", "77.88.8.8");
   ("Neustar", "156.154.70.1");
   ("Mullvad", "194.242.2.2");
   ("Hurricane Electric", "74.82.42.42");
   ("PuntCAT", "109.69.8.51");
   ("Verisign Primary", "64.6.64.6");
   ("Verisign Secondary", "64.6.65.6")]%string.

(** What the command line does to the outside world. *)
Inductive console_event : Type :=
| ConPrint (line : string)                 (* [print(line)] *)
| ConResolve (nameserver : string) (timeout lifetime : Q)
             (domain rdtype : string)      (* [res.resolve(domain, rdtype)] *)
| ConInput (prompt : string).              (* [input(prompt)] *)

(** The lines printed and the queries made. *)
Definition lines (t : list console_event) : list string :=
  omap (λ ev, match ev with ConPrint l => Some l | _ => None end) t.

Definition queries (t : list console_event) : list console_event :=
  List.filter (λ ev, match ev with ConResolve _ _ _ _ _ => true | _ => false end) t.

Definition queried_domains (t : list console_event) : list string :=
  omap (λ ev, match ev with ConResolve _ _ _ domain _ => Some domain | _ => None end) t.

Definition prompts (t : list console_event) : nat :=
  length (List.filter (λ ev, match ev with ConInput _ => true | _ => false end) t).

(** [s * n] on strings. *)
Fixpoint str_mul (s : string) (n : nat) : string :=
  match n with
  | O => EmptyString
  | S n' => s +:+ str_mul s n'
  end.

(** The format [{s:<n}]: [s] followed by blanks up to the width [n]; a
    longer [s] is left as it is. *)
Definition ljust (n : nat) (s : string) : string :=
  s +:+ str_mul " " (n - String.length s).

(** A line feed. *)
Definition LF : string := String (Ascii.ascii_of_byte x0a) EmptyString.

(** What one resolver gives: the readings of the clock around the query
    and either the text of the first answer or an exception. *)
Record probe_env (Instant : Type) := mkProbe {
  probe_start : Instant;              (* [start_time = time.time()] *)
  probe_answer : sys_result string;   (* [res.resolve(domain, 'A')], then [answers[0].to_text()] *)
  probe_end : Instant                 (* [time.time()] after the answer *)
}.

Arguments mkProbe {Instant}.
Arguments probe_start {Instant}.
Arguments probe_answer {Instant}.
Arguments probe_end {Instant}.

(** The text of [round((end - start) * 1000, 2)], a float. *)
Class LatencyText (Instant : Type) := latency_text : Instant → Instant → string.

Section Propagation.
Context {Instant : Type} {latency : LatencyText Instant}.

Definition report_title (domain : string) : string :=
  LF +:+ "--- Propagation Test: " +:+ domain +:+ " ---".

Definition report_header : string :=
  ljust 20 "Provider" +:+ " | " +:+ ljust 15 "Status/IP" +:+ " | " +:+ "Latency".

Definition report_rule : string := str_mul "-" 55.

(** The row of a resolver that answered, and of one that did not. *)
Definition row_up (name resolved_ip latency_ms : string) : string :=
  ljust 20 name +:+ " | " +:+ ljust 15 resolved_ip +:+ " | " +:+ latency_ms +:+ "ms".

Definition row_down (name : string) : string :=
  ljust 20 name +:+ " | " +:+ ljust 15 "SERVER DOWN" +:+ " | " +:+ "N/A".

(** The row of a resolver, by what it gave. *)
Definition report_row (name : string) (pe : probe_env Instant) : string :=
  match probe_answer pe with
  | Done resolved_ip =>
      row_up name resolved_ip (latency_text (probe_start pe) (probe_end pe))
  | Failed _ => row_down name
  end.

(** Whether the second column of the row of a resolver holds what it
    shows without growing. *)
Definition status_fits (pe : probe_env Instant) : Prop :=
  match probe_answer pe with
  | Done resolved_ip => (String.length resolved_ip ≤ 15)%nat
  | Failed _ => True
  end.

(** The body of the loop over the table: a resolver that knows only [ip],
    two seconds of timeout and of lifetime, one query for the address
    record; any exception gives the row of a server that is down. *)
Definition probe (domain name ip : string) (pe : probe_env Instant) : list console_event :=
  ConResolve ip 2 2 domain "A" ::
  match probe_answer pe with
  | Done resolved_ip =>
      let latency_ms := latency_text (probe_start pe) (probe_end pe) in
      [ConPrint (row_up name resolved_ip latency_ms)]
  | Failed _ => [ConPrint (row_down name)]
  end.

(** [for name, ip in servers.items()], the [i]-th turn taking what the
    environment gives for it. *)
Fixpoint probe_all (domain : string) (servers : list (string * string))
    (env : nat → probe_env Instant) (i : nat) : list console_event :=
  match servers with
  | [] => []
  | (name, ip) :: servers' =>
      probe domain name ip (env i) ++ probe_all domain servers' env (S i)
  end.

(** [run_propagation_test(domain)] *)
Definition run_propagation_test (domain : string) (env : nat → probe_env Instant)
    : list console_event :=
  [ConPrint (report_title domain); ConPrint report_header; ConPrint report_rule] ++
  probe_all domain GLOBAL_SERVERS env 0 ++
  [ConPrint report_rule].
End Propagation.

(** ** The command line *)

(** What [input] gives. *)
Inductive input_result : Type :=
| Line (s : string)
| KeyboardInterrupt
| EOFError.

(** [str.strip()] and [str.lower()]. *)
Class PyStr := {
  strip : string → string;
  lower : string → string
}.

(** How the command loop stands when the input described is used up. *)
Inductive session_end : Type :=
| LeftLoop        (* [break] *)
| Prompting       (* still in the loop, waiting for input *)
| Uncaught.       (* an exception left the loop *)

Definition PROMPT : string := LF +:+ "DNS-CLI> ".

Section CommandLine.
Context {Instant : Type} {latency : LatencyText Instant} {pystr : PyStr}.

(** [command.lower() in ['quit', 'exit']] *)
Definition is_quit (command : string) : bool :=
  bool_decide (lower command ∈ ["quit"; "exit"]%string).

(** The inputs on which the loop executes [break]: a line that reads quit
    or exit, and the interrupt. *)
Definition ends_session (inp : input_result) : bool :=
  match inp with
  | Line s => is_quit (strip s)
  | KeyboardInterrupt => true
  | EOFError => false
  end.

(** The [while True] loop of the main program.  [env n] is what the
    resolvers give during the [n]-th propagation test of the session. *)
Fixpoint command_loop (inputs : list input_result)
    (env : nat → nat → probe_env Instant) (n : nat)
    : list console_event * session_end :=
  match inputs with
  | [] => ([], Prompting)
  | inp :: inputs' =>
      match inp with
      | Line s =>
          let command := strip s in
          if is_quit command then ([ConInput PROMPT], LeftLoop)
          else if bool_decide (command ≠ EmptyString) then
            let '(t, e) := command_loop inputs' env (S n) in
            (ConInput PROMPT :: run_propagation_test command (env n) ++ t, e)
          else
            let '(t, e) := command_loop inputs' env n in
            (ConInput PROMPT :: t, e)
      | KeyboardInterrupt => ([ConInput PROMPT], LeftLoop)
      | EOFError => ([ConInput PROMPT], Uncaught)
      end
  end.

Definition FAREWELL : string := LF +:+ "Shutting down.".

(** The main program from its two lines of greeting on (the server thread
    it starts before runs beside it): the loop, then the line of farewell
    when the loop was left by [break].  The interrupt is taken at the
    prompt. *)
Definition main_session (inputs : list input_result)
    (env : nat → nat → probe_env Instant) : list console_event * session_end :=
  let '(t, e) := command_loop inputs env 0 in
  ([ConPrint (LF +:+ "Server is running in the background.");
    ConPrint "Type a domain name to run a propagation test, or 'quit' to exit."] ++
   t ++
   match e with
   | LeftLoop => [ConPrint FAREWELL]
   | _ => []
   end, e).
End CommandLine.

(** *** Concrete sessions *)

Module Session.

(** Latency in whole milliseconds of a clock that counts milliseconds. *)
Fixpoint digits (fuel : nat) (n : N) (acc : string) : string :=
  match fuel with
  | O => acc
  | S fuel' =>
      let d := String (Ascii.ascii_of_N (48 + n mod 10)) acc in
      if (n / 10 =? 0)%N then d else digits fuel' (n / 10) d
  end.

Definition ms_latency : LatencyText Z :=
  λ t0 t1, digits 20 (Z.to_N (t1 - t0)) EmptyString.

(** [strip] and [lower] on plain ASCII text without control characters:
    only the blank is white space, only [A-Z] has a lower case. *)
Fixpoint lstrip (s : string) : string :=
  match s with
  | String c s' => if Ascii.eqb c (Ascii.ascii_of_byte x20) then lstrip s' else s
  | EmptyString => EmptyString
  end.

Definition ascii_lower (c : Ascii.ascii) : Ascii.ascii :=
  let n := Ascii.N_of_ascii c in
  if ((65 <=? n) && (n <=? 90))%N then Ascii.ascii_of_N (n + 32) else c.

Fixpoint map_string (f : Ascii.ascii → Ascii.ascii) (s : string) : string :=
  match s with
  | String c s' => String (f c) (map_string f s')
  | EmptyString => EmptyString
  end.

Definition ascii_str : PyStr :=
  {| strip s := String.rev (lstrip (String.rev (lstrip s)));
     lower := map_string ascii_lower |}.

(** Every resolver answers after 12 ms, but the third, which is down. *)
Definition third_down (n i : nat) : probe_env Z :=
  if bool_decide (i = 2%nat)
  then mkProbe 0 (Failed SocketTimeout) 0
  else mkProbe 1000 (Done "93.184.216.34"%string) 1012.

(** What a visitor types, and the resolvers of the example seen through
    the session. *)
Definition typed : list input_result :=
  [Line "  Example.COM "; Line "   "; Line " QuIt "; Line "never read"]%string.

(** An environment of the handler in which the upstream answers and the
    reply to the client fails. *)
Definition env_reply_fails (now : Z) (response : bytes) : handler_env Z :=
  mkEnv now (Failed OSError) (Done ()) (Done ()) (Done response) now.

Definition session (inputs : list input_result) :=
  @main_session Z ms_latency ascii_str inputs third_down.

Definition report (domain : string) :=
  @run_propagation_test Z ms_latency domain (third_down 0).

End Session.

(** ** The runs of the programs *)

Section Runs.
Context {Instant : Type} {clock : Clock Instant} {lib : Dnslib}.

Lemma bind_run {A B} (m : M Instant A) (f : A → M Instant B) c :
  (m ≫= f) c =
  match m c with
  | (Normal a, c1, t1) => let '(o, c2, t2) := f a c1 in (o, c2, t1 ++ t2)
  | (Returned, c1, t1) => (Returned, c1, t1)
  | (Raised e, c1, t1) => (Raised e, c1, t1)
  | (Exited n, c1, t1) => (Exited n, c1, t1)
  end.
Proof. reflexivity. Qed.

(** [forward_query] hands back a value or raises; it never [return]s out
    of its caller nor ends the process. *)
Lemma forward_result_value (env : handler_env Instant) :
  match forward_result env with
  | Normal _ | Raised _ => True
  | _ => False
  end.
Proof. unfold forward_result. by repeat case_match. Qed.

Lemma forward_query_run data (env : handler_env Instant) c :
  forward_query data env c = (forward_result env, c, forward_trace data env).
Proof.
  unfold forward_query, forward_result, forward_trace.
  unfold try_finally, try_except, socket_open, socket_close, sendto, recvfrom,
    mbind, M_bind, mret, M_ret, bind, ret, raise, emit.
  destruct (upstream_socket env) as [[]|e0]; simpl; [|by destruct (is_timeout e0)].
  destruct (upstream_sendto env) as [[]|e]; simpl.
  - destruct (upstream_recvfrom env) as [r|e]; simpl; [done|].
    by destruct (is_timeout e).
  - by destruct (is_timeout e).
Qed.

(** Everything [handle_client] does after the cache check. *)
Lemma forward_then_run data addr (env : handler_env Instant) k c1 :
  (forward_query data env ≫= λ response_data,
     if falsy response_data then return_ else
     parse (default [] response_data) ≫= λ response_record,
     with_cache_lock
       (cache_setitem k (default [] response_data,
                         time_add (time_at_store env) (ttl_of response_record)));;
     sendto ServerSocket (default [] response_data) addr (reply_sendto env)) c1
  = miss_run data addr env k c1 [].
Proof.
  unfold miss_run. rewrite bind_run, forward_query_run.
  pose proof (forward_result_value env) as Hv.
  generalize dependent (forward_trace data env). intros ft.
  destruct (forward_result env) as [[[|b r]|]| |e|n]; simpl; rewrite ?app_nil_r; try done.
  rewrite bind_run. unfold parse.
  destruct (DNSRecord_parse (b :: r)); simpl; rewrite ?app_nil_r; [|done].
  destruct (reply_sendto env) as [[]|e]; simpl; done.
Qed.

Lemma miss_run_pre data addr (env : handler_env Instant) k c1 pre :
  (let '(o, c2, t2) := miss_run data addr env k c1 [] in (o, c2, pre ++ t2)) =
  miss_run data addr env k c1 pre.
Proof.
  unfold miss_run. pose proof (forward_result_value env) as Hv.
  generalize dependent (forward_trace data env). intros ft.
  repeat case_match; simplify_eq/=; done.
Qed.

Lemma handle_client_body_run data addr env c :
  handle_client_body data addr env c = body_run data addr env c.
Proof.
  unfold handle_client_body, body_run, hit_run, cache_key.
  rewrite bind_run. unfold parse at 1.
  destruct (DNSRecord_parse data) as [request|]; [|done].
  cbn [mret M_ret ret].
  set (k := (qname (q request), qtype (q request))).
  pose proof (forward_then_run data addr env k) as Hfwd. unfold ttl_of in Hfwd.
  rewrite bind_run.
  match goal with
  | |- context [with_cache_lock ?L c] =>
      destruct (with_cache_lock L c) as [[o c1] t1] eqn:Hlook
  end.
  unfold with_cache_lock, try_finally, parse, pack, sendto,
    cache_contains, cache_getitem, cache_delitem,
    mbind, M_bind, mret, M_ret, bind, ret, return_, raise, emit in Hlook.
  destruct (c !! k) as [[raw_resp expiry]|] eqn:Hk.
  - rewrite bool_decide_eq_true_2 in Hlook by eauto. rewrite Hk in Hlook.
    destruct (time_ltb (time_at_lookup env) expiry).
    + destruct (DNSRecord_parse raw_resp) as [cached|]; [|by simplify_eq/=].
      destruct DNSRecord_pack as [packed|]; [|by simplify_eq/=].
      destruct (reply_sendto env) as [[]|e]; by simplify_eq/=.
    + rewrite Hk in Hlook. simplify_eq/=. rewrite Hfwd.
      etrans; [|apply miss_run_pre].
      by destruct (miss_run data addr env k _ []) as [[? ?] ?].
  - rewrite bool_decide_eq_false_2 in Hlook by (intros [? ?]; congruence).
    simplify_eq/=. rewrite Hfwd.
    etrans; [|apply miss_run_pre].
    by destruct (miss_run data addr env k _ []) as [[? ?] ?].
Qed.

Lemma handle_client_run data addr env c :
  handle_client data addr env c =
  match body_run data addr env c with
  | (Raised e, c1, t1) => (Normal (), c1, t1 ++ [EvPrint (LogHandlerError addr e)])
  | (Returned, c1, t1) => (Normal (), c1, t1)
  | r => r
  end.
Proof.
  unfold handle_client, call, try_except. rewrite handle_client_body_run.
  by destruct (body_run data addr env c) as [[[] ?] ?].
Qed.

(** In a miss the outcome, the final cache and the part of the trace after
    the cache check do not depend on what the check did. *)
Lemma miss_run_split data addr (env : handler_env Instant) k c1 pre :
  miss_run data addr env k c1 pre =
  ((miss_run data addr env k c1 []).1.1, (miss_run data addr env k c1 []).1.2,
   pre ++ (miss_run data addr env k c1 []).2).
Proof.
  rewrite <- (miss_run_pre data addr env k c1 pre).
  by destruct (miss_run data addr env k c1 []) as [[? ?] ?].
Qed.

End Runs.

(** ** Properties *)

(** ** The header layer of the wire format writes the id where the server expects it *)

Lemma Z_of_byte_of_Z (z : Z) : Wire.Z_of_byte (Wire.byte_of_Z z) = z mod 256.
Proof.
  unfold Wire.Z_of_byte, Wire.byte_of_Z.
  pose proof (Z.mod_pos_bound z 256 eq_refl) as Hb.
  destruct (Byte.of_N (Z.to_N (z mod 256))) as [b|] eqn:Hof; simpl.
  - apply Byte.to_of_N in Hof. rewrite Hof. lia.
  - apply Byte.of_N_None_iff in Hof. lia.
Qed.

Lemma unpack_pack_H (v : Z) (bs : bytes) :
  Wire.pack_H v = Some bs →
  bs = [Wire.byte_of_Z (v / 256); Wire.byte_of_Z v] ∧
  Wire.unpack_H (Wire.byte_of_Z (v / 256)) (Wire.byte_of_Z v) = v.
Proof.
  unfold Wire.pack_H, Wire.unpack_H. case_bool_decide as Hv; [|done].
  intros [= <-]. split; [done|]. rewrite !Z_of_byte_of_Z.
  rewrite (Z.mod_small (v / 256)) by (split; [apply Z.div_pos; lia|apply Z.div_lt_upper_bound; lia]).
  pose proof (Z.div_mod v 256). lia.
Qed.

Lemma pack_items_appends {A N : Type} (p : A → bytes * N → option (bytes * N)) :
  Wire.appends p → Wire.appends (λ xs, Wire.pack_items p xs).
Proof.
  intros Hp xs. induction xs as [|x xs IH]; intros b n b' n' Hpack; simpl in *.
  - simplify_eq. exists []. split; [by rewrite app_nil_r|].
    intros b2 _. by rewrite app_nil_r.
  - destruct (p x (b, n)) as [[b1 n1]|] eqn:Hx; simpl in *; [|done].
    destruct (Hp _ _ _ _ _ Hx) as (s1 & -> & Hs1).
    destruct (IH _ _ _ _ Hpack) as (s2 & -> & Hs2).
    exists (s1 ++ s2). split; [by rewrite app_assoc|].
    intros b2 Hlen. rewrite (Hs1 b2 Hlen). simpl.
    rewrite (Hs2 (b2 ++ s1)) by (rewrite !length_app; lia).
    by rewrite app_assoc.
Qed.

(** What [pack_record] writes: the two bytes of the id, ten more bytes of
    header that do not depend on the id, and the items, which do not depend
    on it either. *)
Lemma pack_record_shape (ic : Wire.ItemCodec) (r : DNSRecord) (w : bytes) :
  Wire.items_append ic →
  Wire.pack_record ic r = Some w →
  0 ≤ hdr_id (header r) < 65536 ∧
  ∃ rest,
    w = [Wire.byte_of_Z (hdr_id (header r) / 256); Wire.byte_of_Z (hdr_id (header r))] ++ rest ∧
    ∀ i, 0 ≤ i < 65536 →
      Wire.pack_record ic (set_header_id r i)
        = Some ([Wire.byte_of_Z (i / 256); Wire.byte_of_Z i] ++ rest).
Proof.
  intros [Hq Hrr] Hpack. unfold Wire.pack_record in *.
  destruct (Wire.pack_header (Wire.set_header_qa r)) as [hb|] eqn:Hhb; simpl in *; [|done].
  unfold Wire.pack_header in Hhb. simpl in Hhb.
  destruct (Wire.pack_H (hdr_id (header r))) as [ib|] eqn:Hid; simpl in *; [|done].
  destruct (unpack_pack_H _ _ Hid) as [-> _].
  assert (Hrange : 0 ≤ hdr_id (header r) < 65536).
  { unfold Wire.pack_H in Hid. by case_bool_decide. }
  split; [done|].
  destruct (Wire.pack_H (hdr_bitmap (header r))) as [fb|] eqn:Hf; simpl in *; [|done].
  destruct (Wire.pack_H (Z.of_nat (length (questions r)))) as [qb|] eqn:Hqb; simpl in *; [|done].
  destruct (Wire.pack_H (Z.of_nat (length (rr r)))) as [ab|] eqn:Hab; simpl in *; [|done].
  destruct (Wire.pack_H (Z.of_nat (length (auth r)))) as [nb|] eqn:Hnb; simpl in *; [|done].
  destruct (Wire.pack_H (Z.of_nat (length (ar r)))) as [rb|] eqn:Hrb; simpl in *; [|done].
  simplify_eq.
  set (tl := fb ++ qb ++ ab ++ nb ++ rb) in *.
  destruct (Wire.pack_items (Wire.pack_question ic) (questions r) _) as [[b1 n1]|] eqn:H1;
    simpl in *; [|done].
  destruct (Wire.pack_items (Wire.pack_rr ic) (rr r) (b1, n1)) as [[b2 n2]|] eqn:H2;
    simpl in *; [|done].
  destruct (Wire.pack_items (Wire.pack_rr ic) (auth r) (b2, n2)) as [[b3 n3]|] eqn:H3;
    simpl in *; [|done].
  destruct (Wire.pack_items (Wire.pack_rr ic) (ar r) (b3, n3)) as [[b4 n4]|] eqn:H4;
    simpl in *; [|done].
  simplify_eq.
  destruct (pack_items_appends _ Hq _ _ _ _ _ H1) as (s1 & -> & Hs1).
  destruct (pack_items_appends _ Hrr _ _ _ _ _ H2) as (s2 & -> & Hs2).
  destruct (pack_items_appends _ Hrr _ _ _ _ _ H3) as (s3 & -> & Hs3).
  destruct (pack_items_appends _ Hrr _ _ _ _ _ H4) as (s4 & -> & Hs4).
  exists (tl ++ s1 ++ s2 ++ s3 ++ s4). split.
  { simpl. by rewrite <- !app_assoc. }
  intros i Hi. unfold Wire.pack_header. simpl.
  assert (Hpi : Wire.pack_H i = Some [Wire.byte_of_Z (i / 256); Wire.byte_of_Z i]).
  { unfold Wire.pack_H. by rewrite bool_decide_eq_true_2. }
  rewrite Hpi. simpl.
  rewrite Hf. simpl. rewrite Hqb. simpl. rewrite Hab. simpl. rewrite Hnb. simpl.
  rewrite Hrb. simpl. fold tl.
  remember (Wire.byte_of_Z (i / 256) :: Wire.byte_of_Z i :: tl) as hb' eqn:Hhb'.
  assert (Hlen : length hb' = S (S (length tl))) by by subst hb'.
  rewrite (Hs1 hb') by done. simpl.
  rewrite (Hs2 (hb' ++ s1))
    by (rewrite ?length_app; simpl; rewrite ?length_app; simpl; lia).
  simpl.
  rewrite (Hs3 ((hb' ++ s1) ++ s2))
    by (rewrite ?length_app; simpl; rewrite ?length_app; simpl; lia).
  simpl.
  rewrite (Hs4 (((hb' ++ s1) ++ s2) ++ s3))
    by (rewrite ?length_app; simpl; rewrite ?length_app; simpl; lia).
  simpl. subst hb'. simpl. by rewrite <- !app_assoc.
Qed.

Lemma wire_parse_reads_id (ic : Wire.ItemCodec) : parse_reads_id (Wire.dnslib ic).
Proof.
  intros d r Hparse. simpl in Hparse. unfold Wire.parse_record in Hparse.
  destruct (Wire.parse_header d) as [[h off]|] eqn:Hh; simpl in Hparse; [|done].
  assert (Hid : Wire.txid d = Some (hdr_id h)).
  { unfold Wire.parse_header in Hh.
    do 12 (destruct d as [|? d]; [done|]). by simplify_eq. }
  repeat (match type of Hparse with
          | context [Wire.parse_items ?p ?d ?n ?o] =>
              destruct (Wire.parse_items p d n o) as [[? ?]|]; simpl in Hparse; [|done]
          end).
  by simplify_eq.
Qed.

Lemma wire_pack_writes_id (ic : Wire.ItemCodec) :
  Wire.items_append ic → pack_writes_id (Wire.dnslib ic).
Proof.
  intros Hic r w Hpack. simpl in Hpack.
  destruct (pack_record_shape ic r w Hic Hpack) as (Hrange & rest & -> & _).
  simpl. f_equal.
  destruct (unpack_pack_H (hdr_id (header r)) [Wire.byte_of_Z (hdr_id (header r) / 256);
                                                  Wire.byte_of_Z (hdr_id (header r))]) as [_ Hu];
    [|done].
  unfold Wire.pack_H. by rewrite bool_decide_eq_true_2.
Qed.

Lemma wire_pack_patches_id (ic : Wire.ItemCodec) :
  Wire.items_append ic → pack_patches_id (Wire.dnslib ic).
Proof.
  intros Hic r i w w' Hpack Hpack'. simpl in Hpack, Hpack'.
  destruct (pack_record_shape ic r w Hic Hpack) as (_ & rest & -> & Hset).
  destruct (pack_record_shape ic _ w' Hic Hpack') as (Hi & _). simpl in Hi.
  rewrite (Hset i Hi) in Hpack'. by simplify_eq.
Qed.

Lemma plain_items_append : Wire.items_append Wire.plain_items.
Proof.
  split; intros x b [] b' [] Hp; simpl in *.
  - unfold Wire.plain_pack_question in *. simpl in *.
    destruct (Wire.encode_name (qname x)) as [n|]; simpl in *; [|done].
    destruct (Wire.pack_H (qtype x)) as [t|]; simpl in *; [|done].
    destruct (Wire.pack_H (qclass x)) as [c|]; simpl in *; [|done].
    simplify_eq. by eexists.
  - unfold Wire.plain_pack_rr in *. simpl in *.
    destruct (Wire.encode_name (rname x)) as [n|]; simpl in *; [|done].
    destruct (Wire.pack_H (rtype x)) as [t|]; simpl in *; [|done].
    destruct (Wire.pack_H (rclass x)) as [c|]; simpl in *; [|done].
    destruct (Wire.pack_I (ttl x)) as [l|]; simpl in *; [|done].
    destruct (Wire.pack_H (Z.of_nat (length (rdata x)))) as [len|]; simpl in *; [|done].
    simplify_eq. by eexists.
Qed.

Section Properties.
Context {Instant : Type} {clock : Clock Instant} {lib : Dnslib}.

Lemma py_min_le x xs : py_min x xs ≤ x ∧ ∀ y, y ∈ xs → py_min x xs ≤ y.
Proof.
  unfold py_min. revert x. induction xs as [|z zs IH]; intros x; simpl.
  - split; [lia|]. intros y Hy. by apply elem_of_nil in Hy.
  - destruct (IH (Z.min x z)) as [Hle Hall]. split; [lia|].
    intros y Hy. apply elem_of_cons in Hy as [->|Hy]; [lia|]. by apply Hall.
Qed.

Lemma py_min_elem x xs : py_min x xs ∈ x :: xs.
Proof.
  unfold py_min. revert x. induction xs as [|z zs IH]; intros x; simpl.
  - apply list_elem_of_here.
  - specialize (IH (Z.min x z)). apply elem_of_cons in IH as [Heq|Hin].
    + rewrite Heq. destruct (Z.min_spec x z) as [[_ ->]|[_ ->]].
      * apply list_elem_of_here.
      * apply list_elem_of_further, list_elem_of_here.
    + by do 2 apply list_elem_of_further.
Qed.

(** The TTL the handler computes is the one the design document asks for. *)
Lemma ttl_of_is_ttl_to_cache (response : DNSRecord) :
  is_ttl_to_cache response (ttl_of response).
Proof.
  unfold is_ttl_to_cache, ttl_of.
  destruct (rr response) as [|r rs]; [done|]. simpl. split.
  - apply py_min_elem.
  - intros x Hx. destruct (py_min_le (ttl r) (map ttl rs)) as [Hle Hall].
    apply elem_of_cons in Hx as [->|Hx]; [done|]. by apply Hall.
Qed.

(** C1 (as amended).  On a cache hit whose stored bytes parse and whose
    record packs, the reply is the packing of the parsed cached response
    with its header id set to the id of the current query; it goes to the
    address of the query, the cache is left as it was, and nothing is
    forwarded.  With a library that reads the id of the header from the
    first two bytes of a packet and packs it into the first two bytes and
    into nothing else, the reply carries the transaction id of the client
    (its first two bytes are those of the query), and it is the packing of
    the cached response with only the two bytes of the id overwritten; so
    when the cached bytes are that packing, the reply is the cached bytes
    with only the id overwritten, every other byte, the answer records and
    their stored TTLs among them, as stored.  In the record that is packed
    the flags, the questions, the answer records with their TTLs and the
    other sections are those parsed from the cached bytes. *)
Theorem hit_reply_is_repacked_record (data : bytes) (addr : address)
    (env : handler_env Instant) (c : gmap (string * Z) (bytes * Instant))
    (request cached : DNSRecord) (raw wire : bytes) (expiry : Instant) :
  parse_reads_id lib →
  pack_writes_id lib →
  pack_patches_id lib →
  DNSRecord_parse data = Some request →
  c !! cache_key request = Some (raw, expiry) →
  time_ltb (time_at_lookup env) expiry = true →
  DNSRecord_parse raw = Some cached →
  DNSRecord_pack (set_header_id cached (hdr_id (header request))) = Some wire →
  reply_sendto env = Done () →
  handle_client data addr env c =
    (Normal (), c,
     [EvLockAcquire; EvCacheIn (cache_key request); EvCacheGet (cache_key request);
      EvSendTo ServerSocket wire addr true; EvLockRelease]) ∧
  Wire.txid wire = Some (hdr_id (header request)) ∧
  Wire.txid wire = Wire.txid data ∧
  (∀ canonical, DNSRecord_pack cached = Some canonical →
     wire = Wire.overwrite_id canonical (hdr_id (header request))) ∧
  (DNSRecord_pack cached = Some raw →
     wire = Wire.overwrite_id raw (hdr_id (header request))) ∧
  hdr_id (header (set_header_id cached (hdr_id (header request)))) = hdr_id (header request) ∧
  hdr_bitmap (header (set_header_id cached (hdr_id (header request)))) = hdr_bitmap (header cached) ∧
  questions (set_header_id cached (hdr_id (header request))) = questions cached ∧
  rr (set_header_id cached (hdr_id (header request))) = rr cached ∧
  auth (set_header_id cached (hdr_id (header request))) = auth cached ∧
  ar (set_header_id cached (hdr_id (header request))) = ar cached.
Proof.
  intros Hread Hid Hpatch Hreq Hk Hvalid Hraw Hpack Hsend.
  split; [|split; [|split; [|split; [|split; [|done]]]]].
  - rewrite handle_client_run. unfold body_run, hit_run.
    by rewrite Hreq, Hk, Hvalid, Hraw, Hpack, Hsend.
  - by rewrite (Hid _ _ Hpack).
  - by rewrite (Hid _ _ Hpack), (Hread _ _ Hreq).
  - intros canonical Hcanonical. exact (Hpatch _ _ _ _ Hcanonical Hpack).
  - intros Hcanonical. exact (Hpatch _ _ _ _ Hcanonical Hpack).
Qed.

(** The network calls made while the cache lock is held are exactly these:
    on a cache hit that gets as far as replying, the one send of the reply
    to the client; otherwise none.  So the exchange with the upstream server
    and the reply that follows a forward are made with the lock free. *)
Lemma network_calls_under_lock (data : bytes) (addr : address)
    (env : handler_env Instant) (c : gmap (string * Z) (bytes * Instant)) :
  io_under_lock false (handle_client data addr env c).2 =
  match hit_reply data env c with
  | Some packed => [EvSendTo ServerSocket packed addr (sent_ok (reply_sendto env))]
  | None => []
  end.
Proof.
  rewrite handle_client_run. unfold hit_reply, body_run, hit_run, miss_run.
  pose proof (forward_result_value env) as Hv. unfold forward_trace.
  destruct (DNSRecord_parse data) as [request|]; simpl; [|done].
  destruct (c !! cache_key request) as [[raw expiry]|]; simpl.
  - destruct (time_ltb (time_at_lookup env) expiry); simpl.
    + destruct (DNSRecord_parse raw) as [cached|]; simpl; [|done].
      destruct (DNSRecord_pack _); simpl; [|done].
      by destruct (reply_sendto env) as [[]|e].
    + repeat case_match; simplify_eq/=; done.
  - repeat case_match; simplify_eq/=; done.
Qed.

(** C2 (the code departs from it).  On a cache hit whose stored bytes
    parse and whose record packs, the handler sends the reply to the client
    while it holds the cache lock: the run starts with the acquisition, the
    membership test, the read, the [sendto] on the listening socket and only
    then the release, whether the send went through or not.  What is done
    under the lock is the test, the read and that send, so the list of the
    network calls made with the lock held is not empty. *)
Theorem hit_reply_sent_under_lock (data : bytes) (addr : address)
    (env : handler_env Instant) (c : gmap (string * Z) (bytes * Instant))
    (request cached : DNSRecord) (raw wire : bytes) (expiry : Instant) :
  DNSRecord_parse data = Some request →
  c !! cache_key request = Some (raw, expiry) →
  time_ltb (time_at_lookup env) expiry = true →
  DNSRecord_parse raw = Some cached →
  DNSRecord_pack (set_header_id cached (hdr_id (header request))) = Some wire →
  let k := cache_key request in
  let reply := EvSendTo ServerSocket wire addr (sent_ok (reply_sendto env)) in
  take 5 (handle_client data addr env c).2
    = [EvLockAcquire; EvCacheIn k; EvCacheGet k; reply; EvLockRelease] ∧
  under_lock false (handle_client data addr env c).2
    = [EvCacheIn k; EvCacheGet k; reply] ∧
  io_under_lock false (handle_client data addr env c).2 = [reply] ∧
  List.filter is_network (handle_client data addr env c).2 = [reply].
Proof.
  intros Hreq Hk Hvalid Hraw Hpack k reply. subst k reply.
  rewrite handle_client_run. unfold body_run, hit_run.
  rewrite Hreq, Hk, Hvalid, Hraw, Hpack.
  by destruct (reply_sendto env) as [[]|e].
Qed.

(** C3.  When the handler forwards a query and the bytes that come back
    parse, the entry it stores under the key of the query holds those bytes
    and expires at the instant of the store plus a TTL that is the minimum
    of the TTLs of the answer records, or 60 when there is no answer
    record. *)
Theorem stored_ttl_is_min_or_60 (data : bytes) (addr : address)
    (env : handler_env Instant) (c : gmap (string * Z) (bytes * Instant))
    (request response_record : DNSRecord) (response : bytes) :
  DNSRecord_parse data = Some request →
  is_hit env request c = false →
  (forward_query data env c).1.1 = Normal (Some response) →
  response ≠ [] →
  DNSRecord_parse response = Some response_record →
  ∃ t : Z,
    is_ttl_to_cache response_record t ∧
    (rr response_record = [] → t = 60) ∧
    (handle_client data addr env c).1.2 !! cache_key request
      = Some (response, time_add (time_at_store env) t) ∧
    stores (handle_client data addr env c).2
      = [(cache_key request, (response, time_add (time_at_store env) t))].
Proof.
  intros Hreq Hmiss Hfwd Hne Hresp.
  rewrite forward_query_run in Hfwd. simpl in Hfwd.
  exists (ttl_of response_record).
  split; [apply ttl_of_is_ttl_to_cache|].
  split; [intros Hnil; unfold ttl_of; by rewrite Hnil|].
  rewrite handle_client_run. unfold body_run, is_hit in *. rewrite Hreq.
  destruct response as [|b response]; [done|].
  assert (Hmiss_run : ∀ c1 pre, stores pre = [] →
    let r := match miss_run data addr env (cache_key request) c1 pre with
             | (Raised e, c2, t2) =>
                 (Normal (), c2, t2 ++ [EvPrint (LogHandlerError addr e)])
             | (Returned, c2, t2) => (Normal (), c2, t2)
             | r => r
             end in
    r.1.2 !! cache_key request
      = Some (b :: response, time_add (time_at_store env) (ttl_of response_record)) ∧
    stores r.2
      = [(cache_key request,
          (b :: response, time_add (time_at_store env) (ttl_of response_record)))]).
  { intros c1 pre Hpre. unfold miss_run. rewrite Hfwd, Hresp.
    unfold forward_trace, stores in *.
    destruct (upstream_socket env) as [[]|e0], (upstream_sendto env) as [[]|e1], (reply_sendto env) as [[]|e2]; simpl;
      rewrite ?omap_app, Hpre, lookup_insert_eq; done. }
  destruct (c !! cache_key request) as [[raw expiry]|]; simpl.
  - rewrite Hmiss. by apply Hmiss_run.
  - by apply Hmiss_run.
Qed.

(** C4.  When the exchange with the upstream server fails (it times out,
    it raises, or the bytes that come back do not parse) the handler writes
    nothing to the cache: the cache is as the check at the start of the
    handler left it. *)
Theorem failed_exchange_stores_nothing (data : bytes) (addr : address)
    (env : handler_env Instant) (c : gmap (string * Z) (bytes * Instant))
    (request : DNSRecord) :
  DNSRecord_parse data = Some request →
  ((forward_query data env c).1.1 = Normal None ∨
   (∃ e, (forward_query data env c).1.1 = Raised e) ∨
   (∃ response, (forward_query data env c).1.1 = Normal (Some response) ∧
                DNSRecord_parse response = None)) →
  stores (handle_client data addr env c).2 = [] ∧
  (handle_client data addr env c).1.2
    = after_lookup (time_at_lookup env) (cache_key request) c.
Proof.
  intros Hreq Hfail. rewrite forward_query_run in Hfail. simpl in Hfail.
  rewrite handle_client_run. unfold body_run, hit_run, after_lookup. rewrite Hreq.
  assert (Hmiss_run : ∀ c1 pre, stores pre = [] →
    let r := match miss_run data addr env (cache_key request) c1 pre with
             | (Raised e, c2, t2) =>
                 (Normal (), c2, t2 ++ [EvPrint (LogHandlerError addr e)])
             | (Returned, c2, t2) => (Normal (), c2, t2)
             | r => r
             end in
    stores r.2 = [] ∧ r.1.2 = c1).
  { intros c1 pre Hpre. unfold miss_run, forward_trace, stores in *.
    destruct Hfail as [Hf|[[e Hf]|(response & Hf & Hparse)]]; rewrite Hf.
    - destruct (upstream_socket env) as [[]|e0], (upstream_sendto env) as [[]|e1]; simpl; by rewrite ?omap_app, Hpre.
    - destruct (upstream_socket env) as [[]|e0], (upstream_sendto env) as [[]|e1]; simpl; by rewrite ?omap_app, Hpre.
    - rewrite Hparse.
      destruct (upstream_socket env) as [[]|e0], (upstream_sendto env) as [[]|e1], response; simpl;
        by rewrite ?omap_app, Hpre. }
  destruct (c !! cache_key request) as [[raw expiry]|]; simpl.
  - destruct (time_ltb (time_at_lookup env) expiry); [|by apply Hmiss_run].
    destruct (DNSRecord_parse raw) as [cached|]; simpl; [|done].
    destruct (DNSRecord_pack _); simpl; [|done].
    by destruct (reply_sendto env) as [[]|e].
  - by apply Hmiss_run.
Qed.

(** C5.  An entry found under the key of the query is valid exactly when
    the instant read is strictly before its expiry.  A valid entry is
    served: the cache is left as it is, nothing is deleted and nothing is
    forwarded.  An entry that is not valid is deleted in the critical
    section that found it, and from there on the run is the run on a cache
    without the key: same outcome, same final cache, same calls after the
    critical section. *)
Theorem lookup_validity_and_eviction (data : bytes) (addr : address)
    (env : handler_env Instant) (c : gmap (string * Z) (bytes * Instant))
    (request : DNSRecord) (raw : bytes) (expiry : Instant) :
  DNSRecord_parse data = Some request →
  c !! cache_key request = Some (raw, expiry) →
  let k := cache_key request in
  let '(o, c', t) := handle_client data addr env c in
  if time_ltb (time_at_lookup env) expiry
  then
    take 3 t = [EvLockAcquire; EvCacheIn k; EvCacheGet k] ∧
    c' = c ∧ evictions t = [] ∧ stores t = [] ∧ count is_upstream t = 0%nat
  else
    ∃ rest,
      t = [EvLockAcquire; EvCacheIn k; EvCacheGet k; EvCacheDel k; EvLockRelease] ++ rest ∧
      evictions t = [k] ∧
      handle_client data addr env (delete k c)
        = (o, c', [EvLockAcquire; EvCacheIn k; EvLockRelease] ++ rest).
Proof.
  intros Hreq Hk. cbv zeta. rewrite !handle_client_run. unfold body_run.
  rewrite Hreq. cbv zeta. rewrite Hk, lookup_delete_eq.
  set (k := cache_key request).
  destruct (time_ltb (time_at_lookup env) expiry).
  - unfold hit_run. fold k.
    destruct (DNSRecord_parse raw) as [cached|]; simpl; [|done].
    destruct (DNSRecord_pack _); simpl; [|done].
    by destruct (reply_sendto env) as [[]|e].
  - rewrite (miss_run_split _ _ _ _ _ [EvLockAcquire; EvCacheIn k; EvCacheGet k;
                                        EvCacheDel k; EvLockRelease]).
    rewrite (miss_run_split _ _ _ _ _ [EvLockAcquire; EvCacheIn k; EvLockRelease]).
    assert (Hev : evictions (miss_run data addr env k (delete k c) []).2 = []).
    { unfold miss_run, forward_trace. pose proof (forward_result_value env).
      repeat case_match; simplify_eq/=; done. }
    destruct (miss_run data addr env k (delete k c) []) as [[o c'] t]; simpl in *.
    destruct o; simpl.
    + exists t. by rewrite Hev.
    + exists t. by rewrite Hev.
    + exists (t ++ [EvPrint (LogHandlerError addr e)]).
      unfold evictions in *. by rewrite omap_app, Hev.
    + exists t. by rewrite Hev.
Qed.



(** C8 (the code departs from it).  When the bind is refused for lack of
    privilege the server makes one bind, on the configured address, gives
    the diagnostic to [print] and ends the process with code 1 through
    [os._exit]: no second attempt on this or another port, and the loop is
    never entered, whatever traffic is waiting.  The diagnostic fits the
    buffer of standard output many times over, so it reaches a terminal,
    which is flushed at the end of the line, but not a pipe or a file: there
    it is still in the buffer when the process ends, and nothing is
    delivered. *)
Theorem bind_permission_denied_exits (its : list iteration_env)
    (c : gmap (string * Z) (bytes * Instant)) :
  ∃ t,
    run_dns_server (Failed PermissionError) its c = (Exited 1, c, t) ∧
    t = [EvSocket ServerSocket; EvBind ServerSocket (HOST, PORT);
         EvPrint LogPermissionDenied; EvExit 1] ∧
    count is_bind t = 1%nat ∧
    count is_recv t = 0%nat ∧
    printed t = [LogPermissionDenied] ∧
    Z.of_nat (String.length PERMISSION_DENIED_LINE) < STDOUT_BUFFER ∧
    delivered Terminal t = [LogPermissionDenied] ∧
    delivered PipeOrFile t = [].
Proof.
  unfold run_dns_server, try_except, bind_socket, os_exit.
  rewrite !bind_run. unfold emit at 1. cbn [app].
  rewrite bind_run. unfold emit at 1. cbn [raise is_permission_error].
  rewrite bind_run. unfold emit at 1. cbn [app].
  eexists. split; [reflexivity|].
  repeat split.
Qed.

(** C9.  When the forwarder hands back the empty byte string the handler
    does what it does on a timeout: it returns without a reply, without a
    write to the cache and without printing, and the whole run is the run
    in which the upstream never answered. *)
Theorem empty_upstream_reply_dropped (data : bytes) (addr : address)
    (env : handler_env Instant) (c : gmap (string * Z) (bytes * Instant))
    (request : DNSRecord) :
  DNSRecord_parse data = Some request →
  is_hit env request c = false →
  (forward_query data env c).1.1 = Normal (Some []) →
  let '(o, c', t) := handle_client data addr env c in
  o = Normal () ∧ replies t = [] ∧ stores t = [] ∧ printed t = [] ∧
  c' = after_lookup (time_at_lookup env) (cache_key request) c ∧
  handle_client data addr (with_upstream_timeout env) c = (o, c', t).
Proof.
  intros Hreq Hmiss Hfwd. rewrite forward_query_run in Hfwd. simpl in Hfwd.
  rewrite !handle_client_run. unfold body_run, is_hit, after_lookup in *.
  rewrite Hreq. unfold with_upstream_timeout at 1 2. simpl.
  assert (Hsock : upstream_socket env = Done ()).
  { unfold forward_result in Hfwd. by destruct (upstream_socket env) as [[]|e]. }
  assert (Hsend : upstream_sendto env = Done ()).
  { unfold forward_result in Hfwd. rewrite Hsock in Hfwd.
    destruct (upstream_sendto env) as [[]|e]; [done|]. by destruct (is_timeout e). }
  assert (Hfwd' : forward_result (with_upstream_timeout env) = Normal None).
  { unfold forward_result, with_upstream_timeout. simpl. by rewrite Hsock, Hsend. }
  assert (Htr : forward_trace data (with_upstream_timeout env) = forward_trace data env).
  { done. }
  destruct (c !! cache_key request) as [[raw expiry]|]; simpl.
  - rewrite Hmiss. unfold miss_run. rewrite Hfwd, Hfwd', Htr.
    unfold forward_trace. by rewrite Hsock, Hsend.
  - unfold miss_run. rewrite Hfwd, Hfwd', Htr.
    unfold forward_trace. by rewrite Hsock, Hsend.
Qed.

End Properties.

(** ** The properties on concrete runs *)

Import Example.

(** The scenario of the design document: a first query for [example.com]
    is forwarded and its answer cached for 120 seconds, the smaller of the
    two TTLs. *)
Example first_query_is_forwarded_and_cached :
  replies (run_handler alice_query alice (env_answering 1000 answer) ∅).2
    = [(answer, alice)] ∧
  (run_handler alice_query alice (env_answering 1000 answer) ∅).1.2
    !! ("example.com."%string, 1) = Some (answer, 1120).
Proof. split; vm_compute; reflexivity. Qed.

(** Ten seconds later another client is served from the cache, under its
    own transaction id and without a forward. *)
Example second_query_is_served_from_cache :
  replies (run_handler bob_query bob (env_silent 1010) warm_cache).2
    = [(answer_for_bob, bob)] ∧
  count is_upstream (run_handler bob_query bob (env_silent 1010) warm_cache).2 = 0%nat.
Proof. split; vm_compute; reflexivity. Qed.

(** After 125 seconds the entry has expired: it is deleted and the query
    is forwarded again. *)
Example third_query_is_forwarded_again :
  (run_handler bob_query bob (env_silent 1125) warm_cache).1.2
    !! ("example.com."%string, 1) = None ∧
  count is_upstream (run_handler bob_query bob (env_silent 1125) warm_cache).2 = 5%nat.
Proof. split; vm_compute; reflexivity. Qed.

(** The comparison with the expiry is strict: at the very instant of its
    expiry the entry is no longer served. *)
Example entry_at_its_expiry_instant_is_evicted :
  evictions (run_handler bob_query bob (env_silent 1120) warm_cache).2
    = [("example.com."%string, 1)] ∧
  replies (run_handler bob_query bob (env_silent 1119) warm_cache).2
    = [(answer_for_bob, bob)].
Proof. split; vm_compute; reflexivity. Qed.

(** Only the lack of privilege is handled at the bind: any other failure
    of the bind leaves [run_dns_server] as an exception, with nothing
    printed. *)
Example bind_address_in_use_is_not_handled :
  @run_dns_server Z (Failed OSError) [] ∅ =
    (Raised OSError, ∅, [EvSocket ServerSocket; EvBind ServerSocket (HOST, PORT)]).
Proof. reflexivity. Qed.

(** With the uncompressed codec and a cached packet that is exactly what
    the codec writes, a hit does amount to patching the id bytes. *)
Example canonical_hit_patches_the_id :
  answer_for_bob = Wire.overwrite_id answer 17185.
Proof. vm_compute. reflexivity. Qed.

(** Whatever the codec of the items, a cached packet that carries a byte
    after its sections is not replied as it is: the byte is not part of
    what was parsed, so it is not part of what is packed. *)
Lemma padded_reply_is_repacked (ic : Wire.ItemCodec) (addr : address) :
  replies (@handle_client Z Z_clock (Wire.dnslib ic) bare_query addr
             (env_silent 50) padded_cache).2
    = [(bare_reply, addr)] ∧
  length bare_reply ≠ length (Wire.overwrite_id padded_reply 4660).
Proof.
  split; [|by vm_compute].
  rewrite handle_client_run. destruct addr as [host port].
  vm_compute. reflexivity.
Qed.

(** C1, the claim as stated fails: the cache holds, under the key of the
    query and still valid, a thirteen-byte packet; the reply has twelve
    bytes, so it is not the cached packet with its id bytes overwritten. *)
Lemma hit_reply_not_patched_bytes :
  @DNSRecord_parse plain_dnslib bare_query = Some bare_request ∧
  padded_cache !! cache_key bare_request = Some (padded_reply, 100) ∧
  @time_ltb Z Z_clock 50 100 = true ∧
  replies (run_handler bare_query bob (env_silent 50) padded_cache).2
    = [(bare_reply, bob)] ∧
  bare_reply ≠ Wire.overwrite_id padded_reply (hdr_id (header bare_request)).
Proof.
  repeat split; try (vm_compute; reflexivity).
  intros Heq. apply (f_equal length) in Heq. vm_compute in Heq. discriminate Heq.
Qed.

(** C1 (as amended) on the second client of the scenario. *)
Lemma hit_reply_is_repacked_record_witness :
  parse_reads_id plain_dnslib ∧
  pack_writes_id plain_dnslib ∧
  pack_patches_id plain_dnslib ∧
  @DNSRecord_parse plain_dnslib bob_query = Some bob_request ∧
  warm_cache !! cache_key bob_request = Some (answer, 1120) ∧
  @time_ltb Z Z_clock (time_at_lookup (env_silent 1010)) 1120 = true ∧
  @DNSRecord_parse plain_dnslib answer = Some answer_record ∧
  @DNSRecord_pack plain_dnslib (set_header_id answer_record (hdr_id (header bob_request)))
    = Some answer_for_bob ∧
  reply_sendto (env_silent 1010) = Done () ∧
  run_handler bob_query bob (env_silent 1010) warm_cache =
    (Normal (), warm_cache,
     [EvLockAcquire; EvCacheIn (cache_key bob_request); EvCacheGet (cache_key bob_request);
      EvSendTo ServerSocket answer_for_bob bob true; EvLockRelease]) ∧
  Wire.txid answer_for_bob = Some 17185 ∧
  Wire.txid answer_for_bob = Wire.txid bob_query ∧
  (@DNSRecord_pack plain_dnslib answer_record = Some answer →
   answer_for_bob = Wire.overwrite_id answer 17185).
Proof.
  assert (L0 : parse_reads_id plain_dnslib)
    by exact (wire_parse_reads_id Wire.plain_items).
  assert (L1 : pack_writes_id plain_dnslib)
    by exact (wire_pack_writes_id Wire.plain_items plain_items_append).
  assert (L2 : pack_patches_id plain_dnslib)
    by exact (wire_pack_patches_id Wire.plain_items plain_items_append).
  assert (H1 : @DNSRecord_parse plain_dnslib bob_query = Some bob_request)
    by (vm_compute; reflexivity).
  assert (H2 : warm_cache !! cache_key bob_request = Some (answer, 1120))
    by (vm_compute; reflexivity).
  assert (H3 : @time_ltb Z Z_clock (time_at_lookup (env_silent 1010)) 1120 = true)
    by reflexivity.
  assert (H4 : @DNSRecord_parse plain_dnslib answer = Some answer_record)
    by (vm_compute; reflexivity).
  assert (H5 : @DNSRecord_pack plain_dnslib
                 (set_header_id answer_record (hdr_id (header bob_request)))
               = Some answer_for_bob)
    by (vm_compute; reflexivity).
  assert (H6 : reply_sendto (env_silent 1010) = Done ()) by reflexivity.
  repeat (split; [assumption|]).
  destruct (hit_reply_is_repacked_record (clock := Z_clock) bob_query bob (env_silent 1010)
              warm_cache bob_request answer_record answer answer_for_bob 1120
              L0 L1 L2 H1 H2 H3 H4 H5 H6) as (Hrun & Hid & Hsame & _ & Hraw & _).
  split; [exact Hrun|]. split; [exact Hid|]. split; [exact Hsame | exact Hraw].
Defined.

(** C2 on a header-only query that finds a valid entry: the twelve bytes of
    the reply leave through the listening socket before the lock is
    released. *)
Lemma hit_reply_sent_under_lock_witness :
  @DNSRecord_parse plain_dnslib bare_query = Some bare_request ∧
  padded_cache !! cache_key bare_request = Some (padded_reply, 100) ∧
  @time_ltb Z Z_clock (time_at_lookup (env_silent 50)) 100 = true ∧
  @DNSRecord_parse plain_dnslib padded_reply = Some padded_record ∧
  @DNSRecord_pack plain_dnslib (set_header_id padded_record (hdr_id (header bare_request)))
    = Some bare_reply ∧
  take 5 (run_handler bare_query bob (env_silent 50) padded_cache).2
    = [EvLockAcquire; EvCacheIn ("."%string, 1); EvCacheGet ("."%string, 1);
       EvSendTo ServerSocket bare_reply bob true; EvLockRelease] ∧
  under_lock false (run_handler bare_query bob (env_silent 50) padded_cache).2
    = [EvCacheIn ("."%string, 1); EvCacheGet ("."%string, 1);
       EvSendTo ServerSocket bare_reply bob true] ∧
  io_under_lock false (run_handler bare_query bob (env_silent 50) padded_cache).2
    = [EvSendTo ServerSocket bare_reply bob true].
Proof.
  assert (H1 : @DNSRecord_parse plain_dnslib bare_query = Some bare_request)
    by (vm_compute; reflexivity).
  assert (H2 : padded_cache !! cache_key bare_request = Some (padded_reply, 100))
    by (vm_compute; reflexivity).
  assert (H3 : @time_ltb Z Z_clock (time_at_lookup (env_silent 50)) 100 = true)
    by reflexivity.
  assert (H4 : @DNSRecord_parse plain_dnslib padded_reply = Some padded_record)
    by (vm_compute; reflexivity).
  assert (H5 : @DNSRecord_pack plain_dnslib
                 (set_header_id padded_record (hdr_id (header bare_request)))
               = Some bare_reply)
    by (vm_compute; reflexivity).
  repeat (split; [assumption|]).
  destruct (hit_reply_sent_under_lock (clock := Z_clock) bare_query bob (env_silent 50)
              padded_cache bare_request padded_record padded_reply bare_reply 100
              H1 H2 H3 H4 H5) as (Hrun & Hunder & Hio & _).
  split; [exact Hrun|]. split; [exact Hunder | exact Hio].
Defined.


(** The diagnostic of the bind is a line of 91 bytes. *)
Example permission_denied_line_length :
  String.length PERMISSION_DENIED_LINE = 91%nat.
Proof. reflexivity. Qed.

(** C3 on the first query of the scenario. *)
Lemma stored_ttl_is_min_or_60_witness :
  @DNSRecord_parse plain_dnslib alice_query = Some alice_request ∧
  @is_hit Z Z_clock (env_answering 1000 answer) alice_request ∅ = false ∧
  (run_forward alice_query (env_answering 1000 answer) ∅).1.1 = Normal (Some answer) ∧
  answer ≠ [] ∧
  @DNSRecord_parse plain_dnslib answer = Some answer_record ∧
  ∃ t : Z,
    is_ttl_to_cache answer_record t ∧
    (run_handler alice_query alice (env_answering 1000 answer) ∅).1.2
      !! cache_key alice_request = Some (answer, 1000 + t).
Proof.
  assert (H1 : @DNSRecord_parse plain_dnslib alice_query = Some alice_request)
    by (vm_compute; reflexivity).
  assert (H2 : @is_hit Z Z_clock (env_answering 1000 answer) alice_request ∅ = false)
    by (vm_compute; reflexivity).
  assert (H3 : (run_forward alice_query (env_answering 1000 answer) ∅).1.1
               = Normal (Some answer))
    by (vm_compute; reflexivity).
  assert (H4 : answer ≠ []) by discriminate.
  assert (H5 : @DNSRecord_parse plain_dnslib answer = Some answer_record)
    by (vm_compute; reflexivity).
  repeat (split; [assumption|]).
  destruct (stored_ttl_is_min_or_60 (clock := Z_clock) alice_query alice
              (env_answering 1000 answer) ∅ alice_request answer_record answer
              H1 H2 H3 H4 H5) as (t & Httl & _ & Hcache & _).
  exists t. split; [exact Httl | exact Hcache].
Defined.

(** C4 on an upstream that answers with four bytes that are no packet. *)
Lemma failed_exchange_stores_nothing_witness :
  @DNSRecord_parse plain_dnslib alice_query = Some alice_request ∧
  (run_forward alice_query (env_answering 1000 garbage) ∅).1.1 = Normal (Some garbage) ∧
  @DNSRecord_parse plain_dnslib garbage = None ∧
  stores (run_handler alice_query alice (env_answering 1000 garbage) ∅).2 = [] ∧
  (run_handler alice_query alice (env_answering 1000 garbage) ∅).1.2
    = @after_lookup Z Z_clock 1000 (cache_key alice_request) ∅.
Proof.
  assert (H1 : @DNSRecord_parse plain_dnslib alice_query = Some alice_request)
    by (vm_compute; reflexivity).
  assert (H2 : (run_forward alice_query (env_answering 1000 garbage) ∅).1.1
               = Normal (Some garbage))
    by (vm_compute; reflexivity).
  assert (H3 : @DNSRecord_parse plain_dnslib garbage = None)
    by (vm_compute; reflexivity).
  repeat (split; [assumption|]).
  exact (failed_exchange_stores_nothing (clock := Z_clock) alice_query alice
           (env_answering 1000 garbage) ∅ alice_request H1
           (or_intror (or_intror (ex_intro _ garbage (conj H2 H3))))).
Defined.

(** C5 on the query that comes after the entry has expired. *)
Lemma lookup_validity_and_eviction_witness :
  @DNSRecord_parse plain_dnslib bob_query = Some bob_request ∧
  warm_cache !! cache_key bob_request = Some (answer, 1120) ∧
  (let k := cache_key bob_request in
   let '(o, c', t) := run_handler bob_query bob (env_silent 1125) warm_cache in
   if @time_ltb Z Z_clock (time_at_lookup (env_silent 1125)) 1120
   then
     take 3 t = [EvLockAcquire; EvCacheIn k; EvCacheGet k] ∧
     c' = warm_cache ∧ evictions t = [] ∧ stores t = [] ∧ count is_upstream t = 0%nat
   else
     ∃ rest,
       t = [EvLockAcquire; EvCacheIn k; EvCacheGet k; EvCacheDel k; EvLockRelease] ++ rest ∧
       evictions t = [k] ∧
       run_handler bob_query bob (env_silent 1125) (delete k warm_cache)
         = (o, c', [EvLockAcquire; EvCacheIn k; EvLockRelease] ++ rest)).
Proof.
  assert (H1 : @DNSRecord_parse plain_dnslib bob_query = Some bob_request)
    by (vm_compute; reflexivity).
  assert (H2 : warm_cache !! cache_key bob_request = Some (answer, 1120))
    by (vm_compute; reflexivity).
  repeat (split; [assumption|]).
  exact (lookup_validity_and_eviction (clock := Z_clock) bob_query bob (env_silent 1125)
           warm_cache bob_request answer 1120 H1 H2).
Defined.

(** C9 on an upstream that answers with an empty datagram. *)
Lemma empty_upstream_reply_dropped_witness :
  @DNSRecord_parse plain_dnslib alice_query = Some alice_request ∧
  @is_hit Z Z_clock (env_answering 1000 []) alice_request ∅ = false ∧
  (run_forward alice_query (env_answering 1000 []) ∅).1.1 = Normal (Some []) ∧
  (let '(o, c', t) := run_handler alice_query alice (env_answering 1000 []) ∅ in
   o = Normal () ∧ replies t = [] ∧ stores t = [] ∧ printed t = [] ∧
   c' = @after_lookup Z Z_clock 1000 (cache_key alice_request) ∅ ∧
   run_handler alice_query alice (with_upstream_timeout (env_answering 1000 [])) ∅
     = (o, c', t)).
Proof.
  assert (H1 : @DNSRecord_parse plain_dnslib alice_query = Some alice_request)
    by (vm_compute; reflexivity).
  assert (H2 : @is_hit Z Z_clock (env_answering 1000 []) alice_request ∅ = false)
    by (vm_compute; reflexivity).
  assert (H3 : (run_forward alice_query (env_answering 1000 []) ∅).1.1 = Normal (Some []))
    by (vm_compute; reflexivity).
  repeat (split; [assumption|]).
  exact (empty_upstream_reply_dropped (clock := Z_clock) alice_query alice
           (env_answering 1000 []) ∅ alice_request H1 H2 H3).
Defined.

(** ** More on the handler and the listener *)

(** The cases of a run of [handle_client]. *)
Ltac handler_cases data env c :=
  rewrite ?handle_client_run;
  unfold body_run, hit_run, miss_run, forward_trace;
  pose proof (forward_result_value env);
  destruct (DNSRecord_parse data) as [?request|]; simpl;
  [ destruct (c !! cache_key request) as [[?raw ?expiry]|]; simpl;
    [ destruct (time_ltb (time_at_lookup env) expiry); simpl | ] | ];
  repeat case_match; simplify_eq/=.

Section MoreProperties.
Context {Instant : Type} {clock : Clock Instant} {lib : Dnslib}.

(** The cache a run of the handler leaves: the one it found, or that one
    without the entry of the query, or that one with a fresh entry for the
    query made of bytes that are not empty and that parsed. *)
Lemma handle_client_final_cache (data : bytes) (addr : address)
    (env : handler_env Instant) (c : gmap (string * Z) (bytes * Instant)) :
  (handle_client data addr env c).1.2 = c ∨
  ∃ request,
    DNSRecord_parse data = Some request ∧
    ((handle_client data addr env c).1.2 = delete (cache_key request) c ∨
     ∃ response response_record,
       response ≠ [] ∧ DNSRecord_parse response = Some response_record ∧
       (handle_client data addr env c).1.2
         = <[cache_key request :=
               (response, time_add (time_at_store env) (ttl_of response_record))]> c).
Proof.
  rewrite handle_client_run. unfold body_run, hit_run, miss_run.
  pose proof (forward_result_value env) as Hv.
  destruct (DNSRecord_parse data) as [request|] eqn:Hreq; simpl; [|by left].
  destruct (c !! cache_key request) as [[raw expiry]|]; simpl.
  - destruct (time_ltb (time_at_lookup env) expiry); simpl.
    + left. repeat case_match; simplify_eq/=; done.
    + right. exists request. split; [done|].
      destruct (forward_result env) as [[[|b r]|]| |e|n]; simpl; try done;
        try by left.
      destruct (DNSRecord_parse (b :: r)) as [rec|] eqn:Hrec; simpl; [|by left].
      right. exists (b :: r), rec. rewrite insert_delete_eq.
      by destruct (reply_sendto env) as [[]|e].
  - destruct (forward_result env) as [[[|b r]|]| |e|n]; simpl; try done;
      try by left.
    destruct (DNSRecord_parse (b :: r)) as [rec|] eqn:Hrec; simpl; [|by left].
    right. exists request. split; [done|]. right. exists (b :: r), rec.
    by destruct (reply_sendto env) as [[]|e].
Qed.

(** What a forward that succeeds leaves and does, for a query that parsed
    and found no valid entry. *)
Lemma handle_client_miss_run (data : bytes) (addr : address)
    (env : handler_env Instant) (c : gmap (string * Z) (bytes * Instant))
    (request response_record : DNSRecord) (response : bytes) :
  DNSRecord_parse data = Some request →
  is_hit env request c = false →
  forward_result env = Normal (Some response) →
  response ≠ [] →
  DNSRecord_parse response = Some response_record →
  let v := (response, time_add (time_at_store env) (ttl_of response_record)) in
  (handle_client data addr env c).1.2 = <[cache_key request := v]> c ∧
  replies (handle_client data addr env c).2
    = (if sent_ok (reply_sendto env) then [(response, addr)] else []) ∧
  printed (handle_client data addr env c).2
    = (match reply_sendto env with
       | Done _ => []
       | Failed e => [LogHandlerError addr e]
       end) ∧
  forwarded (handle_client data addr env c).2 = [(data, (UPSTREAM_DNS, UPSTREAM_PORT))].
Proof.
  intros Hreq Hmiss Hfwd Hne Hresp v.
  assert (Hsock : upstream_socket env = Done ()).
  { unfold forward_result in Hfwd. by destruct (upstream_socket env) as [[]|e]. }
  assert (Hsend : upstream_sendto env = Done ()).
  { unfold forward_result in Hfwd. rewrite Hsock in Hfwd.
    destruct (upstream_sendto env) as [[]|e]; [done|]. by destruct (is_timeout e). }
  rewrite handle_client_run. unfold body_run, is_hit in *. rewrite Hreq.
  destruct response as [|b response]; [done|].
  destruct (c !! cache_key request) as [[raw expiry]|]; simpl.
  - rewrite Hmiss. unfold miss_run, forward_trace. rewrite Hfwd, Hresp, Hsock, Hsend.
    rewrite insert_delete_eq.
    by destruct (reply_sendto env) as [[]|e].
  - unfold miss_run, forward_trace. rewrite Hfwd, Hresp, Hsock, Hsend.
    by destruct (reply_sendto env) as [[]|e].
Qed.

(** X1.  The handler reads and writes the cache under the key of its own
    query only: every membership test, read, deletion and write of the run
    is on that key, no operation is on another key, and every other key
    maps to what it mapped to before. *)
Theorem handler_touches_only_its_key (data : bytes) (addr : address)
    (env : handler_env Instant) (c : gmap (string * Z) (bytes * Instant))
    (request : DNSRecord) (k : string * Z) :
  DNSRecord_parse data = Some request →
  k ≠ cache_key request →
  Forall (λ k', k' = cache_key request) (cache_keys (handle_client data addr env c).2) ∧
  (k ∉ cache_keys (handle_client data addr env c).2) ∧
  (handle_client data addr env c).1.2 !! k = c !! k.
Proof.
  intros Hreq Hk.
  assert (Hkeys : Forall (λ k', k' = cache_key request)
                    (cache_keys (handle_client data addr env c).2)).
  { rewrite handle_client_run. unfold body_run, hit_run, miss_run, forward_trace.
    rewrite Hreq. pose proof (forward_result_value env).
    repeat case_match; simplify_eq/=; repeat constructor. }
  split; [done|]. split.
  { intros Hin. rewrite Forall_forall in Hkeys. by apply Hk, Hkeys. }
  destruct (handle_client_final_cache data addr env c)
    as [->|(request' & Hreq' & [->|(response & rec & _ & _ & ->)])]; [done| |];
    simplify_eq.
  - by rewrite lookup_delete_ne.
  - by rewrite lookup_insert_ne.
Qed.

(** X2.  A run of the handler calls [sendto] on the listening socket at
    most once, and only with the address the query came from; so at most
    one reply leaves, and to the sender. *)
Theorem at_most_one_reply_to_the_sender (data : bytes) (addr : address)
    (env : handler_env Instant) (c : gmap (string * Z) (bytes * Instant)) :
  (reply_attempts (handle_client data addr env c).2 = [] ∨
   reply_attempts (handle_client data addr env c).2 = [addr]) ∧
  (length (replies (handle_client data addr env c).2) ≤ 1)%nat ∧
  Forall (λ r, r.2 = addr) (replies (handle_client data addr env c).2).
Proof.
  handler_cases data env c;
    (split; [first [by left | by right]|]); (split; [simpl; lia|]);
    repeat constructor.
Qed.

(** X3.  When the forward succeeds the client gets the bytes the upstream
    sent, as they are, whatever they hold (the handler compares neither the
    id nor the question of the answer with those of the query), and the
    upstream was sent the bytes of the client, as they are. *)
Theorem forwarded_answer_is_passed_through (data : bytes) (addr : address)
    (env : handler_env Instant) (c : gmap (string * Z) (bytes * Instant))
    (request response_record : DNSRecord) (response : bytes) :
  DNSRecord_parse data = Some request →
  is_hit env request c = false →
  (forward_query data env c).1.1 = Normal (Some response) →
  response ≠ [] →
  DNSRecord_parse response = Some response_record →
  reply_sendto env = Done () →
  replies (handle_client data addr env c).2 = [(response, addr)] ∧
  forwarded (handle_client data addr env c).2 = [(data, (UPSTREAM_DNS, UPSTREAM_PORT))].
Proof.
  intros Hreq Hmiss Hfwd Hne Hresp Hsend.
  rewrite forward_query_run in Hfwd. simpl in Hfwd.
  destruct (handle_client_miss_run data addr env c request response_record response
              Hreq Hmiss Hfwd Hne Hresp) as (_ & Hrep & _ & Hup).
  rewrite Hsend in Hrep. by split.
Qed.

(** X4.  In every run of the handler the lock is taken only when free,
    released only when held, and free when the handler returns, also when
    an exception was raised while it was held. *)
Theorem lock_is_always_released (data : bytes) (addr : address)
    (env : handler_env Instant) (c : gmap (string * Z) (bytes * Instant)) :
  lock_after false (handle_client data addr env c).2 = Some false.
Proof. handler_cases data env c; done. Qed.

(** X5.  A datagram that does not parse is dropped before anything else
    happens: no lock is taken, the cache is neither read nor written,
    nothing is sent anywhere; the error is printed with the address of the
    sender. *)
Theorem malformed_query_is_dropped_untouched (data : bytes) (addr : address)
    (env : handler_env Instant) (c : gmap (string * Z) (bytes * Instant)) :
  DNSRecord_parse data = None →
  handle_client data addr env c
    = (Normal (), c, [EvPrint (LogHandlerError addr DNSError)]).
Proof.
  intros Hreq. rewrite handle_client_run. unfold body_run. by rewrite Hreq.
Qed.

(** X6.  The entry is stored before the reply is sent: when the reply to
    the client fails after a forward that succeeded, the answer is in the
    cache all the same, no reply left, and the failure is printed. *)
Theorem failed_reply_keeps_the_entry (data : bytes) (addr : address)
    (env : handler_env Instant) (c : gmap (string * Z) (bytes * Instant))
    (request response_record : DNSRecord) (response : bytes) (e : exn) :
  DNSRecord_parse data = Some request →
  is_hit env request c = false →
  (forward_query data env c).1.1 = Normal (Some response) →
  response ≠ [] →
  DNSRecord_parse response = Some response_record →
  reply_sendto env = Failed e →
  (∃ expiry, (handle_client data addr env c).1.2 !! cache_key request
               = Some (response, expiry)) ∧
  replies (handle_client data addr env c).2 = [] ∧
  printed (handle_client data addr env c).2 = [LogHandlerError addr e].
Proof.
  intros Hreq Hmiss Hfwd Hne Hresp Hsend.
  rewrite forward_query_run in Hfwd. simpl in Hfwd.
  destruct (handle_client_miss_run data addr env c request response_record response
              Hreq Hmiss Hfwd Hne Hresp) as (Hc & Hrep & Hpr & _).
  rewrite Hsend in Hrep, Hpr. split; [|done].
  eexists. rewrite Hc. apply lookup_insert_eq.
Qed.

(** X7.  The handler keeps the cache free of bytes it could not read back:
    if every entry holds bytes that are not empty and that parse, so it is
    after the run. *)
Theorem cache_entries_always_parse (data : bytes) (addr : address)
    (env : handler_env Instant) (c : gmap (string * Z) (bytes * Instant)) :
  cache_parses c →
  cache_parses (handle_client data addr env c).1.2.
Proof.
  intros Hc. unfold cache_parses in *.
  destruct (handle_client_final_cache data addr env c)
    as [->|(request & Hreq & [->|(response & rec & Hne & Hrec & ->)])]; [done| |].
  - by apply map_Forall_delete.
  - apply map_Forall_insert_2; [|done]. simpl. split; [done|]. by eexists.
Qed.

(** X8.  A forward that succeeds followed by a query for the same name and
    type, from any client and under any id, read before the entry expires:
    the second query is answered from the cache with the packing of the
    record the first answer parsed to, its id set to that of the second
    query; the cache is not changed and nothing is sent upstream. *)
Theorem miss_then_hit (data1 data2 : bytes) (addr1 addr2 : address)
    (env1 env2 : handler_env Instant) (c : gmap (string * Z) (bytes * Instant))
    (request1 request2 response_record : DNSRecord) (response wire : bytes) :
  DNSRecord_parse data1 = Some request1 →
  is_hit env1 request1 c = false →
  (forward_query data1 env1 c).1.1 = Normal (Some response) →
  response ≠ [] →
  DNSRecord_parse response = Some response_record →
  DNSRecord_parse data2 = Some request2 →
  cache_key request2 = cache_key request1 →
  time_ltb (time_at_lookup env2)
           (time_add (time_at_store env1) (ttl_of response_record)) = true →
  DNSRecord_pack (set_header_id response_record (hdr_id (header request2))) = Some wire →
  reply_sendto env2 = Done () →
  handle_client data2 addr2 env2 (handle_client data1 addr1 env1 c).1.2
    = (Normal (), (handle_client data1 addr1 env1 c).1.2,
       [EvLockAcquire; EvCacheIn (cache_key request2); EvCacheGet (cache_key request2);
        EvSendTo ServerSocket wire addr2 true; EvLockRelease]).
Proof.
  intros Hreq1 Hmiss Hfwd Hne Hresp Hreq2 Hkey Hvalid Hpack Hsend.
  rewrite forward_query_run in Hfwd. simpl in Hfwd.
  destruct (handle_client_miss_run data1 addr1 env1 c request1 response_record response
              Hreq1 Hmiss Hfwd Hne Hresp) as (Hc & _).
  rewrite Hc. rewrite (handle_client_run data2). unfold body_run, hit_run.
  rewrite Hreq2. cbv zeta. rewrite Hkey, lookup_insert_eq, Hvalid, Hresp.
  by rewrite Hpack, Hsend.
Qed.

(** X9.  A run of the handler sends upstream at most once, and what it
    sends is the datagram of the client, byte for byte, to the one
    configured resolver. *)
Theorem only_the_query_goes_upstream (data : bytes) (addr : address)
    (env : handler_env Instant) (c : gmap (string * Z) (bytes * Instant)) :
  forwarded (handle_client data addr env c).2 = [] ∨
  forwarded (handle_client data addr env c).2 = [(data, (UPSTREAM_DNS, UPSTREAM_PORT))].
Proof. handler_cases data env c; first [by left | by right]. Qed.


(** X11.  Only the lack of privilege is handled at the bind.  Any other
    failure of the bind leaves [run_dns_server] as an exception: nothing is
    printed, the process is not ended by the function, and the loop is not
    entered. *)
Theorem other_bind_errors_propagate (e : exn) (its : list iteration_env)
    (c : gmap (string * Z) (bytes * Instant)) :
  is_permission_error e = false →
  run_dns_server (Failed e) its c
    = (Raised e, c, [EvSocket ServerSocket; EvBind ServerSocket (HOST, PORT)]).
Proof.
  intros He.
  unfold run_dns_server, try_except, bind_socket,
    mbind, M_bind, bind, mret, M_ret, ret, raise, emit.
  cbn. by rewrite He.
Qed.
End MoreProperties.

(** ** The propagation test and the command line *)

Lemma string_length_app (s1 s2 : string) :
  String.length (s1 +:+ s2) = (String.length s1 + String.length s2)%nat.
Proof. induction s1 as [|ch s1 IH]; [done|]. exact (f_equal S IH). Qed.

Lemma string_app_assoc (s1 s2 s3 : string) :
  (s1 +:+ s2) +:+ s3 = s1 +:+ s2 +:+ s3.
Proof. induction s1 as [|ch s1 IH]; [done|]. exact (f_equal (String ch) IH). Qed.

Lemma str_mul_blank_length (n : nat) : String.length (str_mul " " n) = n.
Proof. induction n as [|n IH]; [done|]. exact (f_equal S IH). Qed.

(** A text that fits its column fills it exactly. *)
Lemma ljust_length (n : nat) (s : string) :
  (String.length s ≤ n)%nat → String.length (ljust n s) = n.
Proof.
  intros Hle. unfold ljust. rewrite string_length_app, str_mul_blank_length. lia.
Qed.

Lemma substring_after (s1 s2 : string) (k n : nat) :
  String.length s1 = k →
  String.substring k n (s1 +:+ s2) = String.substring 0 n s2.
Proof.
  revert k. induction s1 as [|ch s1 IH]; intros k Hk; simpl in *; subst k; [done|].
  by apply IH.
Qed.

Lemma substring_separator (s : string) :
  String.substring 0 3 (" | " +:+ s) = " | "%string.
Proof. simpl. by destruct s. Qed.

Lemma provider_names_fit :
  Forall (λ s : string * string, (String.length s.1 ≤ 20)%nat) GLOBAL_SERVERS.
Proof. unfold GLOBAL_SERVERS. repeat constructor; simpl; lia. Qed.

Section ConsoleProperties.
Context {Instant : Type} {latency : LatencyText Instant} {pystr : PyStr}.

Lemma probe_all_queries (domain : string) (servers : list (string * string))
    (env : nat → probe_env Instant) (i : nat) :
  queries (probe_all domain servers env i)
    = map (λ s, ConResolve s.2 2 2 domain "A") servers.
Proof.
  revert i. induction servers as [|[name ip] servers IH]; intros i; [done|].
  cbn [probe_all]. unfold queries in *. rewrite List.filter_app, IH.
  unfold probe. by destruct (probe_answer (env i)).
Qed.

Lemma probe_all_lines (domain : string) (servers : list (string * string))
    (env : nat → probe_env Instant) (i : nat) :
  lines (probe_all domain servers env i)
    = imap (λ j s, report_row s.1 (env (i + j)%nat)) servers.
Proof.
  revert i. induction servers as [|[name ip] servers IH]; intros i; [done|].
  cbn [probe_all]. unfold lines in *. rewrite omap_app, IH.
  rewrite imap_cons. unfold probe, report_row at 2. simpl. rewrite Nat.add_0_r.
  destruct (probe_answer (env i)); simpl; f_equal;
    apply imap_ext; intros j s _; simpl; do 2 f_equal; lia.
Qed.

Lemma probe_all_domains (domain : string) (servers : list (string * string))
    (env : nat → probe_env Instant) (i : nat) (d : string) :
  d ∈ queried_domains (probe_all domain servers env i) → d = domain.
Proof.
  revert i. induction servers as [|[name ip] servers IH]; intros i Hd.
  - by apply elem_of_nil in Hd.
  - cbn [probe_all] in Hd. unfold queried_domains in *.
    rewrite omap_app in Hd. apply elem_of_app in Hd as [Hd|Hd]; [|by eapply IH].
    unfold probe in Hd. destruct (probe_answer (env i)); simpl in Hd;
      apply elem_of_cons in Hd as [->|Hd]; try done; by apply elem_of_nil in Hd.
Qed.

Lemma run_propagation_test_queries (domain : string) (env : nat → probe_env Instant) :
  queries (run_propagation_test domain env)
    = map (λ s, ConResolve s.2 2 2 domain "A") GLOBAL_SERVERS.
Proof.
  unfold run_propagation_test. generalize GLOBAL_SERVERS. intros servers.
  unfold queries. rewrite !List.filter_app. simpl. rewrite app_nil_r.
  apply probe_all_queries.
Qed.

Lemma run_propagation_test_lines (domain : string) (env : nat → probe_env Instant) :
  lines (run_propagation_test domain env)
    = [report_title domain; report_header; report_rule] ++
      imap (λ j s, report_row s.1 (env j)) GLOBAL_SERVERS ++ [report_rule].
Proof.
  unfold run_propagation_test. generalize GLOBAL_SERVERS. intros servers.
  unfold lines. rewrite !omap_app. fold (lines (probe_all domain servers env 0)).
  by rewrite probe_all_lines.
Qed.

Lemma run_propagation_test_row (domain : string) (env : nat → probe_env Instant)
    (i : nat) (name ip : string) :
  GLOBAL_SERVERS !! i = Some (name, ip) →
  lines (run_propagation_test domain env) !! (3 + i)%nat
    = Some (report_row name (env i)).
Proof.
  intros Hi. rewrite run_propagation_test_lines.
  generalize dependent GLOBAL_SERVERS. intros servers Hi.
  change (3 + i)%nat with (length [report_title domain; report_header; report_rule] + i)%nat.
  rewrite lookup_app_r by lia.
  replace (_ + i - _)%nat with i by (simpl; lia).
  rewrite lookup_app_l by (rewrite length_imap; by apply lookup_lt_Some in Hi).
  by rewrite list_lookup_imap, Hi.
Qed.

(** X12.  Whatever the domain and whatever the resolvers do, the test
    queries each of the twenty resolvers of the table exactly once, in the
    order of the table, for the address record of the domain, through a
    resolver that knows that server only, with two seconds of timeout and
    of lifetime; it prints 24 lines: title, header, rule, one row per
    resolver and the rule again. *)
Theorem propagation_test_queries_every_server (domain : string)
    (env : nat → probe_env Instant) :
  queries (run_propagation_test domain env)
    = map (λ s, ConResolve s.2 2 2 domain "A") GLOBAL_SERVERS ∧
  length GLOBAL_SERVERS = 20%nat ∧
  NoDup GLOBAL_SERVERS.*1 ∧
  length (lines (run_propagation_test domain env)) = 24%nat ∧
  take 3 (lines (run_propagation_test domain env))
    = [report_title domain; report_header; report_rule] ∧
  last (lines (run_propagation_test domain env)) = Some report_rule.
Proof.
  split; [apply run_propagation_test_queries|].
  split; [done|].
  split; [apply (bool_decide_unpack (NoDup GLOBAL_SERVERS.*1)); by vm_compute|].
  rewrite run_propagation_test_lines.
  split; [|split].
  - by rewrite !length_app, length_imap.
  - done.
  - by rewrite !app_assoc, last_snoc.
Qed.

(** X13.  The row of a resolver is decided by what that resolver did and
    by nothing else: the row of the [i]-th server of the table is line
    [3 + i] of the report; it shows the first answer and the latency when
    the query succeeded, and SERVER DOWN when it raised, and the rows of
    the servers after a failure are printed all the same. *)
Theorem propagation_row_by_server (domain : string) (env : nat → probe_env Instant)
    (i : nat) (name ip : string) :
  GLOBAL_SERVERS !! i = Some (name, ip) →
  lines (run_propagation_test domain env) !! (3 + i)%nat
    = Some (match probe_answer (env i) with
            | Done resolved_ip =>
                row_up name resolved_ip
                  (latency_text (probe_start (env i)) (probe_end (env i)))
            | Failed _ => row_down name
            end).
Proof. apply run_propagation_test_row. Qed.

(** X14.  The table is aligned.  In the row of every resolver the first
    column is exactly twenty characters wide (no name of the table is
    longer), so the first separator stands where it stands in the header;
    the second separator does too whenever the status fits its fifteen
    characters, which SERVER DOWN does. *)
Theorem propagation_rows_are_aligned (domain : string) (env : nat → probe_env Instant)
    (i : nat) (l : string) :
  (i < 20)%nat →
  lines (run_propagation_test domain env) !! (3 + i)%nat = Some l →
  String.substring 20 3 report_header = " | "%string ∧
  String.substring 38 3 report_header = " | "%string ∧
  String.substring 20 3 l = " | "%string ∧
  (status_fits (env i) → String.substring 38 3 l = " | "%string).
Proof.
  intros Hi Hl. split; [done|]. split; [done|].
  destruct (GLOBAL_SERVERS !! i) as [[name ip]|] eqn:Hs;
    [|apply lookup_ge_None in Hs; simpl in Hs; lia].
  assert (Hname : (String.length name ≤ 20)%nat).
  { pose proof provider_names_fit as Hfit.
    rewrite Forall_lookup in Hfit. exact (Hfit i (name, ip) Hs). }
  rewrite (run_propagation_test_row domain env i name ip Hs) in Hl.
  injection Hl as <-.
  unfold report_row, status_fits, row_up, row_down.
  destruct (probe_answer (env i)) as [resolved_ip|e].
  - split.
    + rewrite (substring_after _ _ 20); [apply substring_separator | by apply ljust_length].
    + intros Hfit.
      rewrite <- (string_app_assoc (ljust 20 name)), <- (string_app_assoc _ (ljust 15 _)).
      rewrite (substring_after _ _ 38); [apply substring_separator|].
      rewrite !string_length_app, !ljust_length by done. done.
  - split.
    + rewrite (substring_after _ _ 20); [apply substring_separator | by apply ljust_length].
    + intros _.
      rewrite <- (string_app_assoc (ljust 20 name)), <- (string_app_assoc _ (ljust 15 _)).
      rewrite (substring_after _ _ 38); [apply substring_separator|].
      rewrite !string_length_app, !ljust_length by (simpl; lia). done.
Qed.

(** The loop run on inputs after which it is still running, then on more
    inputs: the calls so far, then those of the loop on the rest. *)
Lemma command_loop_app (pre rest : list input_result)
    (env : nat → nat → probe_env Instant) (n : nat) (t : list console_event) :
  command_loop pre env n = (t, Prompting) →
  ∃ m, command_loop (pre ++ rest) env n
         = (t ++ (command_loop rest env m).1, (command_loop rest env m).2).
Proof.
  revert n t. induction pre as [|inp pre IH]; intros n t Hrun.
  - simpl in Hrun. simplify_eq. exists n. simpl.
    by destruct (command_loop rest env n).
  - cbn [command_loop app] in *. destruct inp as [s| |]; [|done|done].
    destruct (is_quit (strip s)); [done|].
    destruct (bool_decide (strip s ≠ EmptyString)).
    + destruct (command_loop pre env (S n)) as [t' e'] eqn:Hpre.
      simplify_eq. destruct (IH (S n) t' Hpre) as [m Hm].
      exists m. rewrite Hm. cbv beta iota zeta.
      by rewrite <- app_comm_cons, <- app_assoc.
    + destruct (command_loop pre env n) as [t' e'] eqn:Hpre.
      simplify_eq. destruct (IH n t' Hpre) as [m Hm].
      exists m. by rewrite Hm.
Qed.

(** X15.  While the loop is running, a line that reads quit or exit once
    stripped and lowered, and the interrupt at the prompt, end the session
    in the same way: the farewell is printed right after that prompt, and
    whatever input follows is never read. *)
Theorem quit_or_interrupt_ends_the_session (pre rest : list input_result)
    (inp : input_result) (env : nat → nat → probe_env Instant) :
  (command_loop pre env 0).2 = Prompting →
  ends_session inp = true →
  main_session (pre ++ inp :: rest) env
    = ((main_session pre env).1 ++ [ConInput PROMPT; ConPrint FAREWELL], LeftLoop).
Proof.
  intros Hpre Hend. unfold main_session.
  destruct (command_loop pre env 0) as [t e] eqn:Hrun. simpl in Hpre. subst e.
  destruct (command_loop_app pre (inp :: rest) env 0 t Hrun) as [m Hm].
  rewrite Hm.
  assert (Hinp : command_loop (inp :: rest) env m = ([ConInput PROMPT], LeftLoop)).
  { cbn [command_loop]. destruct inp as [s| |]; simpl in Hend; [|done|done].
    by rewrite Hend. }
  rewrite Hinp. simpl. rewrite app_nil_r.
  by rewrite <- !app_assoc.
Qed.

(** X16.  The end of the input is not handled: while the loop is running,
    [EOFError] at the prompt leaves the loop as an exception; nothing is
    printed after that prompt, the farewell neither, and what follows is
    never read. *)
Theorem end_of_input_is_not_handled (pre rest : list input_result)
    (env : nat → nat → probe_env Instant) :
  (command_loop pre env 0).2 = Prompting →
  main_session (pre ++ EOFError :: rest) env
    = ((main_session pre env).1 ++ [ConInput PROMPT], Uncaught).
Proof.
  intros Hpre. unfold main_session.
  destruct (command_loop pre env 0) as [t e] eqn:Hrun. simpl in Hpre. subst e.
  destruct (command_loop_app pre (EOFError :: rest) env 0 t Hrun) as [m Hm].
  rewrite Hm. simpl. by rewrite !app_nil_r.
Qed.

Lemma run_propagation_test_domains (domain : string) (env : nat → probe_env Instant)
    (d : string) :
  d ∈ queried_domains (run_propagation_test domain env) → d = domain.
Proof.
  unfold run_propagation_test. generalize GLOBAL_SERVERS. intros servers Hd.
  unfold queried_domains in Hd. rewrite !omap_app in Hd. simpl in Hd.
  rewrite app_nil_r in Hd. by eapply probe_all_domains.
Qed.

Lemma queried_domains_turn (t1 t2 : list console_event) :
  queried_domains (ConInput PROMPT :: t1 ++ t2)
    = queried_domains t1 ++ queried_domains t2.
Proof. unfold queried_domains. by rewrite <- omap_app. Qed.

Lemma command_loop_domains (inputs : list input_result)
    (env : nat → nat → probe_env Instant) (n : nat) (d : string) :
  d ∈ queried_domains (command_loop inputs env n).1 →
  ∃ s, Line s ∈ inputs ∧ d = strip s ∧ d ≠ EmptyString ∧ is_quit d = false.
Proof.
  revert n. induction inputs as [|inp inputs IH]; intros n Hd.
  - by apply elem_of_nil in Hd.
  - cbn [command_loop] in Hd. destruct inp as [s| |].
    + destruct (is_quit (strip s)) eqn:Hq.
      { by apply elem_of_nil in Hd. }
      destruct (bool_decide (strip s ≠ EmptyString)) eqn:Hne.
      * destruct (command_loop inputs env (S n)) as [t e] eqn:Hrun.
        cbn [fst] in Hd. rewrite queried_domains_turn in Hd.
        apply elem_of_app in Hd as [Hd|Hd].
        -- apply run_propagation_test_domains in Hd as ->.
           exists s. split; [apply list_elem_of_here|]. split; [done|].
           split; [|done]. by apply bool_decide_eq_true in Hne.
        -- destruct (IH (S n)) as (s' & Hin & Hs'); [by rewrite Hrun|].
           exists s'. split; [by apply list_elem_of_further|done].
      * destruct (command_loop inputs env n) as [t e] eqn:Hrun.
        cbn [fst] in Hd.
        destruct (IH n) as (s' & Hin & Hs'); [by rewrite Hrun|].
        exists s'. split; [by apply list_elem_of_further|done].
    + by apply elem_of_nil in Hd.
    + by apply elem_of_nil in Hd.
Qed.

(** X17.  Every name the session sends to a resolver is a line of the
    input stripped of its surrounding white space, with its case kept; it
    is never empty and never a line that reads quit or exit. *)
Theorem only_stripped_commands_are_resolved (inputs : list input_result)
    (env : nat → nat → probe_env Instant) (d : string) :
  d ∈ queried_domains (main_session inputs env).1 →
  ∃ s, Line s ∈ inputs ∧ d = strip s ∧ d ≠ EmptyString ∧ is_quit d = false.
Proof.
  intros Hd. unfold main_session in Hd.
  destruct (command_loop inputs env 0) as [t e] eqn:Hrun.
  cbn [fst] in Hd. unfold queried_domains in Hd.
  rewrite !omap_app in Hd. apply elem_of_app in Hd as [Hd|Hd].
  { by apply elem_of_nil in Hd. }
  apply elem_of_app in Hd as [Hd|Hd].
  - apply (command_loop_domains inputs env 0). by rewrite Hrun.
  - destruct e; by apply elem_of_nil in Hd.
Qed.
End ConsoleProperties.

(** ** The further properties on concrete runs *)

Import Session.

(** X1 on a header-only query answered by the upstream while the cache
    holds the entry of another name. *)
Lemma handler_touches_only_its_key_witness :
  @DNSRecord_parse plain_dnslib bare_query = Some bare_request ∧
  ("example.com."%string, 1) ≠ cache_key bare_request ∧
  Forall (λ k', k' = cache_key bare_request)
    (cache_keys (run_handler bare_query bob (env_answering 50 bare_reply) warm_cache).2) ∧
  (("example.com."%string, 1)
     ∉ cache_keys (run_handler bare_query bob (env_answering 50 bare_reply) warm_cache).2) ∧
  (run_handler bare_query bob (env_answering 50 bare_reply) warm_cache).1.2
    !! ("example.com."%string, 1) = warm_cache !! ("example.com."%string, 1).
Proof.
  assert (H1 : @DNSRecord_parse plain_dnslib bare_query = Some bare_request)
    by (vm_compute; reflexivity).
  assert (H2 : ("example.com."%string, 1) ≠ cache_key bare_request) by discriminate.
  repeat (split; [assumption|]).
  exact (handler_touches_only_its_key (clock := Z_clock) bare_query bob
           (env_answering 50 bare_reply) warm_cache bare_request
           ("example.com."%string, 1) H1 H2).
Defined.

(** X3 on the first query of the scenario. *)
Lemma forwarded_answer_is_passed_through_witness :
  @DNSRecord_parse plain_dnslib alice_query = Some alice_request ∧
  @is_hit Z Z_clock (env_answering 1000 answer) alice_request ∅ = false ∧
  (run_forward alice_query (env_answering 1000 answer) ∅).1.1 = Normal (Some answer) ∧
  answer ≠ [] ∧
  @DNSRecord_parse plain_dnslib answer = Some answer_record ∧
  reply_sendto (env_answering 1000 answer) = Done () ∧
  replies (run_handler alice_query alice (env_answering 1000 answer) ∅).2
    = [(answer, alice)] ∧
  forwarded (run_handler alice_query alice (env_answering 1000 answer) ∅).2
    = [(alice_query, (UPSTREAM_DNS, UPSTREAM_PORT))].
Proof.
  assert (H1 : @DNSRecord_parse plain_dnslib alice_query = Some alice_request)
    by (vm_compute; reflexivity).
  assert (H2 : @is_hit Z Z_clock (env_answering 1000 answer) alice_request ∅ = false)
    by (vm_compute; reflexivity).
  assert (H3 : (run_forward alice_query (env_answering 1000 answer) ∅).1.1
               = Normal (Some answer))
    by (vm_compute; reflexivity).
  assert (H4 : answer ≠ []) by discriminate.
  assert (H5 : @DNSRecord_parse plain_dnslib answer = Some answer_record)
    by (vm_compute; reflexivity).
  assert (H6 : reply_sendto (env_answering 1000 answer) = Done ()) by reflexivity.
  repeat (split; [assumption|]).
  exact (forwarded_answer_is_passed_through (clock := Z_clock) alice_query alice
           (env_answering 1000 answer) ∅ alice_request answer_record answer
           H1 H2 H3 H4 H5 H6).
Defined.

(** X5 on four bytes that are no packet. *)
Lemma malformed_query_is_dropped_untouched_witness :
  @DNSRecord_parse plain_dnslib garbage = None ∧
  run_handler garbage bob (env_silent 1000) warm_cache
    = (Normal (), warm_cache, [EvPrint (LogHandlerError bob DNSError)]).
Proof.
  assert (H1 : @DNSRecord_parse plain_dnslib garbage = None)
    by (vm_compute; reflexivity).
  split; [assumption|].
  exact (malformed_query_is_dropped_untouched (clock := Z_clock) garbage bob
           (env_silent 1000) warm_cache H1).
Defined.

(** X6 on the first query of the scenario, the client gone meanwhile. *)
Lemma failed_reply_keeps_the_entry_witness :
  @DNSRecord_parse plain_dnslib alice_query = Some alice_request ∧
  @is_hit Z Z_clock (env_reply_fails 1000 answer) alice_request ∅ = false ∧
  (run_forward alice_query (env_reply_fails 1000 answer) ∅).1.1 = Normal (Some answer) ∧
  answer ≠ [] ∧
  @DNSRecord_parse plain_dnslib answer = Some answer_record ∧
  reply_sendto (env_reply_fails 1000 answer) = Failed OSError ∧
  (∃ expiry, (run_handler alice_query alice (env_reply_fails 1000 answer) ∅).1.2
               !! cache_key alice_request = Some (answer, expiry)) ∧
  replies (run_handler alice_query alice (env_reply_fails 1000 answer) ∅).2 = [] ∧
  printed (run_handler alice_query alice (env_reply_fails 1000 answer) ∅).2
    = [LogHandlerError alice OSError].
Proof.
  assert (H1 : @DNSRecord_parse plain_dnslib alice_query = Some alice_request)
    by (vm_compute; reflexivity).
  assert (H2 : @is_hit Z Z_clock (env_reply_fails 1000 answer) alice_request ∅ = false)
    by (vm_compute; reflexivity).
  assert (H3 : (run_forward alice_query (env_reply_fails 1000 answer) ∅).1.1
               = Normal (Some answer))
    by (vm_compute; reflexivity).
  assert (H4 : answer ≠ []) by discriminate.
  assert (H5 : @DNSRecord_parse plain_dnslib answer = Some answer_record)
    by (vm_compute; reflexivity).
  assert (H6 : reply_sendto (env_reply_fails 1000 answer) = Failed OSError)
    by reflexivity.
  repeat (split; [assumption|]).
  exact (failed_reply_keeps_the_entry (clock := Z_clock) alice_query alice
           (env_reply_fails 1000 answer) ∅ alice_request answer_record answer OSError
           H1 H2 H3 H4 H5 H6).
Defined.

(** X7 on the cache of the scenario and a query that replaces its entry. *)
Lemma cache_entries_always_parse_witness :
  @cache_parses Z plain_dnslib warm_cache ∧
  @cache_parses Z plain_dnslib
    (run_handler bob_query bob (env_answering 1125 empty_answer) warm_cache).1.2.
Proof.
  assert (H1 : @cache_parses Z plain_dnslib warm_cache).
  { apply map_Forall_singleton. split; [discriminate|].
    exists answer_record. vm_compute. reflexivity. }
  split; [assumption|].
  exact (cache_entries_always_parse (clock := Z_clock) bob_query bob
           (env_answering 1125 empty_answer) warm_cache H1).
Defined.

(** X8 on the first two queries of the scenario. *)
Lemma miss_then_hit_witness :
  @DNSRecord_parse plain_dnslib alice_query = Some alice_request ∧
  @is_hit Z Z_clock (env_answering 1000 answer) alice_request ∅ = false ∧
  (run_forward alice_query (env_answering 1000 answer) ∅).1.1 = Normal (Some answer) ∧
  answer ≠ [] ∧
  @DNSRecord_parse plain_dnslib answer = Some answer_record ∧
  @DNSRecord_parse plain_dnslib bob_query = Some bob_request ∧
  cache_key bob_request = cache_key alice_request ∧
  @time_ltb Z Z_clock (time_at_lookup (env_silent 1010))
    (@time_add Z Z_clock (time_at_store (env_answering 1000 answer)) (ttl_of answer_record))
    = true ∧
  @DNSRecord_pack plain_dnslib (set_header_id answer_record (hdr_id (header bob_request)))
    = Some answer_for_bob ∧
  reply_sendto (env_silent 1010) = Done () ∧
  replies (run_handler bob_query bob (env_silent 1010)
             (run_handler alice_query alice (env_answering 1000 answer) ∅).1.2).2
    = [(answer_for_bob, bob)].
Proof.
  assert (H1 : @DNSRecord_parse plain_dnslib alice_query = Some alice_request)
    by (vm_compute; reflexivity).
  assert (H2 : @is_hit Z Z_clock (env_answering 1000 answer) alice_request ∅ = false)
    by (vm_compute; reflexivity).
  assert (H3 : (run_forward alice_query (env_answering 1000 answer) ∅).1.1
               = Normal (Some answer))
    by (vm_compute; reflexivity).
  assert (H4 : answer ≠ []) by discriminate.
  assert (H5 : @DNSRecord_parse plain_dnslib answer = Some answer_record)
    by (vm_compute; reflexivity).
  assert (H6 : @DNSRecord_parse plain_dnslib bob_query = Some bob_request)
    by (vm_compute; reflexivity).
  assert (H7 : cache_key bob_request = cache_key alice_request) by reflexivity.
  assert (H8 : @time_ltb Z Z_clock (time_at_lookup (env_silent 1010))
                 (@time_add Z Z_clock (time_at_store (env_answering 1000 answer))
                    (ttl_of answer_record)) = true)
    by (vm_compute; reflexivity).
  assert (H9 : @DNSRecord_pack plain_dnslib
                 (set_header_id answer_record (hdr_id (header bob_request)))
               = Some answer_for_bob)
    by (vm_compute; reflexivity).
  assert (H10 : reply_sendto (env_silent 1010) = Done ()) by reflexivity.
  repeat (split; [assumption|]).
  unfold run_handler.
  rewrite (miss_then_hit (clock := Z_clock) alice_query bob_query alice bob
             (env_answering 1000 answer) (env_silent 1010) ∅
             alice_request bob_request answer_record answer answer_for_bob
             H1 H2 H3 H4 H5 H6 H7 H8 H9 H10).
  reflexivity.
Defined.

(** X11 on a port that is taken. *)
Lemma other_bind_errors_propagate_witness :
  is_permission_error OSError = false ∧
  @run_dns_server Z (Failed OSError) [mkIter (Failed OSError) (Done ())] ∅
    = (Raised OSError, ∅, [EvSocket ServerSocket; EvBind ServerSocket (HOST, PORT)]).
Proof.
  assert (H1 : is_permission_error OSError = false) by reflexivity.
  split; [assumption|].
  exact (other_bind_errors_propagate OSError [mkIter (Failed OSError) (Done ())] ∅ H1).
Defined.

(** X13 on the third resolver of the table, which is down in the
    example. *)
Lemma propagation_row_by_server_witness :
  GLOBAL_SERVERS !! 2%nat = Some ("Cloudflare", "1.1.1.1")%string ∧
  lines (report "example.com") !! 5%nat
    = Some "Cloudflare           | SERVER DOWN     | N/A"%string.
Proof.
  assert (H1 : GLOBAL_SERVERS !! 2%nat = Some ("Cloudflare", "1.1.1.1")%string)
    by reflexivity.
  split; [assumption|].
  exact (propagation_row_by_server (latency := ms_latency) "example.com" (third_down 0)
           2 "Cloudflare" "1.1.1.1" H1).
Defined.

(** X14 on the first resolver of the table, which answers in the
    example. *)
Lemma propagation_rows_are_aligned_witness :
  (0 < 20)%nat ∧
  lines (report "example.com") !! 3%nat
    = Some "Google Primary       | 93.184.216.34   | 12ms"%string ∧
  String.substring 20 3 "Google Primary       | 93.184.216.34   | 12ms" = " | "%string ∧
  (status_fits (third_down 0 0) →
   String.substring 38 3 "Google Primary       | 93.184.216.34   | 12ms" = " | "%string).
Proof.
  assert (H1 : (0 < 20)%nat) by lia.
  assert (H2 : lines (report "example.com") !! 3%nat
               = Some "Google Primary       | 93.184.216.34   | 12ms"%string)
    by (vm_compute; reflexivity).
  repeat (split; [assumption|]).
  exact (proj2 (proj2 (propagation_rows_are_aligned (latency := ms_latency)
                         "example.com" (third_down 0) 0
                         "Google Primary       | 93.184.216.34   | 12ms" H1 H2))).
Defined.

(** X15 on a session in which quit is typed in mixed case between
    blanks. *)
Lemma quit_or_interrupt_ends_the_session_witness :
  (@command_loop Z ms_latency ascii_str [Line "  Example.COM "; Line "   "]%string
     third_down 0).2 = Prompting ∧
  @ends_session ascii_str (Line " QuIt ") = true ∧
  session typed
    = ((session [Line "  Example.COM "; Line "   "]%string).1
         ++ [ConInput PROMPT; ConPrint FAREWELL], LeftLoop).
Proof.
  assert (H1 : (@command_loop Z ms_latency ascii_str
                  [Line "  Example.COM "; Line "   "]%string third_down 0).2 = Prompting)
    by (vm_compute; reflexivity).
  assert (H2 : @ends_session ascii_str (Line " QuIt ") = true)
    by (vm_compute; reflexivity).
  repeat (split; [assumption|]).
  exact (quit_or_interrupt_ends_the_session (latency := ms_latency) (pystr := ascii_str)
           [Line "  Example.COM "; Line "   "]%string [Line "never read"]%string
           (Line " QuIt ") third_down H1 H2).
Defined.

(** X16 on a session whose input ends after one blank line. *)
Lemma end_of_input_is_not_handled_witness :
  (@command_loop Z ms_latency ascii_str [Line "   "]%string third_down 0).2 = Prompting ∧
  session [Line "   "; EOFError]%string
    = ((session [Line "   "]%string).1 ++ [ConInput PROMPT], Uncaught).
Proof.
  assert (H1 : (@command_loop Z ms_latency ascii_str [Line "   "]%string
                  third_down 0).2 = Prompting)
    by (vm_compute; reflexivity).
  split; [assumption|].
  exact (end_of_input_is_not_handled (latency := ms_latency) (pystr := ascii_str)
           [Line "   "]%string [] third_down H1).
Defined.

(** X17 on the session of the example: the name resolved is the first
    line without its blanks, in the case it was typed in. *)
Lemma only_stripped_commands_are_resolved_witness :
  "Example.COM"%string ∈ queried_domains (session typed).1 ∧
  ∃ s, Line s ∈ typed ∧ "Example.COM"%string = @strip ascii_str s ∧
       "Example.COM"%string ≠ EmptyString ∧
       @is_quit ascii_str "Example.COM" = false.
Proof.
  assert (H1 : "Example.COM"%string ∈ queried_domains (session typed).1).
  { apply (list_elem_of_lookup_2 _ 0%nat). vm_compute. reflexivity. }
  split; [assumption|].
  exact (only_stripped_commands_are_resolved (latency := ms_latency) (pystr := ascii_str)
           typed third_down "Example.COM" H1).
Defined.
